(** * weather_server.py: the authorization and metering pipeline

    A shallow embedding of [src/weather_server.py]: the API-key middleware
    ([ApiKeyMiddleware.dispatch]), the context variable [api_key_context],
    the data-provider helper [make_nws_request] and the two metered tools
    [get_alerts] and [get_forecast].

    Python values that come back from the data provider are modelled by the
    type [json]; the interpreter operations the source applies to them
    (truthiness, [in], subscripting, iteration, slicing, [dict.get], [str])
    are written out case by case, including the cases in which Python raises.
    Effects (the context variable, the uuid generator, the calls to the
    billing client and to the data provider) are threaded through a small
    state-and-exception monad whose state carries a trace of the external
    calls made so far. *)

From Stdlib Require Import String Ascii List ZArith Lia Bool.
From Stdlib Require Import DecimalString.
Import ListNotations.
Local Open Scope string_scope.
Local Open Scope Z_scope.
Local Set Warnings "-register-all".

(** ** Python strings *)

(** A Python [str] is modelled by its UTF-8 encoding.  [len] counts code
    points, that is the bytes that are not continuation bytes (10xxxxxx). *)

Definition nl : string := String "010"%char EmptyString.

Definition is_continuation (c : ascii) : bool :=
  let n := N_of_ascii c in (128 <=? n)%N && (n <? 192)%N.

Fixpoint py_len (s : string) : Z :=
  match s with
  | EmptyString => 0
  | String c s' => (if is_continuation c then 0 else 1) + py_len s'
  end.

(** The continuation bytes that follow a leading byte. *)
Fixpoint take_continuation (s : string) : string * string :=
  match s with
  | String c s' =>
      if is_continuation c
      then let (h, t) := take_continuation s' in (String c h, t)
      else (EmptyString, s)
  | EmptyString => (EmptyString, EmptyString)
  end.

(** The code points of a string, each one as a one-character string
    (what iterating over a [str] yields).  [fuel] bounds the recursion by
    the number of bytes. *)
Fixpoint code_points_fuel (fuel : nat) (s : string) : list string :=
  match fuel with
  | O => []
  | S fuel' =>
      match s with
      | EmptyString => []
      | String c s' =>
          let (h, t) := take_continuation s' in
          String c h :: code_points_fuel fuel' t
      end
  end.

Definition code_points (s : string) : list string :=
  code_points_fuel (String.length s) s.

(** [sub in s] for two strings. *)
Definition py_str_contains (sub s : string) : bool :=
  match String.index 0 sub s with
  | Some _ => true
  | None => false
  end.

Definition ascii_lower (c : ascii) : ascii :=
  let n := N_of_ascii c in
  if (65 <=? n)%N && (n <=? 90)%N then ascii_of_N (n + 32) else c.

Fixpoint str_lower (s : string) : string :=
  match s with
  | EmptyString => EmptyString
  | String c s' => String (ascii_lower c) (str_lower s')
  end.

(** ** Exceptions *)

(** The exceptions the modelled code can meet.  All of them are subclasses
    of [Exception]; [ServiceError] stands for whatever an external client
    (billing SDK, HTTP client) raises.  Interpreter-level [BaseException]s
    (cancellation, keyboard interrupt) are outside the model. *)
Inductive exn : Type :=
| KeyError (key : string)
| TypeError
| AttributeError
| ServiceError (msg : string).

Inductive Outcome (A : Type) : Type :=
| Returned (a : A)
| Raised (e : exn).
Arguments Returned {A} a.
Arguments Raised {A} e.

Definition obind {A B} (o : Outcome A) (f : A -> Outcome B) : Outcome B :=
  match o with
  | Returned a => f a
  | Raised e => Raised e
  end.

(** ** Python values returned by [response.json()] *)

Inductive json : Type :=
| JNull
| JBool (b : bool)
| JInt (z : Z)
| JFloat (repr : string)   (* a float, by its [repr] *)
| JStr (s : string)
| JList (l : list json)
| JDict (d : list (string * json)).  (* insertion-ordered, keys distinct *)

Fixpoint dict_lookup (key : string) (d : list (string * json)) : option json :=
  match d with
  | [] => None
  | (k, v) :: d' => if String.eqb k key then Some v else dict_lookup key d'
  end.

(** [bool(v)]: [None], [False], zero, the empty string and the empty
    containers are falsy. *)
Definition py_truthy (v : json) : bool :=
  match v with
  | JNull => false
  | JBool b => b
  | JInt z => negb (z =? 0)
  | JFloat r => negb (String.eqb r "0.0" || String.eqb r "-0.0")
  | JStr s => negb (String.eqb s "")
  | JList l => match l with [] => false | _ => true end
  | JDict d => match d with [] => false | _ => true end
  end.

Definition is_JStr (key : string) (v : json) : bool :=
  match v with
  | JStr s => String.eqb s key
  | _ => false
  end.

(** [key in v] for a string [key]: key membership in a dict, element
    membership in a list, substring test in a string, [TypeError] for a
    value that is not a container. *)
Definition py_contains (key : string) (v : json) : Outcome bool :=
  match v with
  | JDict d => Returned (match dict_lookup key d with Some _ => true | None => false end)
  | JList l => Returned (existsb (is_JStr key) l)
  | JStr s => Returned (py_str_contains key s)
  | _ => Raised TypeError
  end.

(** [v[key]] for a string [key]. *)
Definition py_getitem (v : json) (key : string) : Outcome json :=
  match v with
  | JDict d =>
      match dict_lookup key d with
      | Some x => Returned x
      | None => Raised (KeyError key)
      end
  | _ => Raised TypeError
  end.

(** [v.get(key, default)]: only dicts have the method. *)
Definition py_get (v : json) (key : string) (default : json) : Outcome json :=
  match v with
  | JDict d =>
      match dict_lookup key d with
      | Some x => Returned x
      | None => Returned default
      end
  | _ => Raised AttributeError
  end.

(** [iter(v)], fully unrolled: the items of a list, the keys of a dict,
    the characters of a string. *)
Definition py_iter (v : json) : Outcome (list json) :=
  match v with
  | JList l => Returned l
  | JDict d => Returned (map (fun kv => JStr (fst kv)) d)
  | JStr s => Returned (map JStr (code_points s))
  | _ => Raised TypeError
  end.

(** [v[:n]].  Slicing a dict is an error (a [TypeError], unhashable slice,
    up to Python 3.11; a [KeyError] from 3.12 on). *)
Definition py_slice_to (n : nat) (v : json) : Outcome json :=
  match v with
  | JList l => Returned (JList (firstn n l))
  | JStr s => Returned (JStr (String.concat "" (firstn n (code_points s))))
  | _ => Raised TypeError
  end.

(** [repr(v)].  The quoting and escaping of [repr] on a string belongs to
    the interpreter and is taken as the parameter [str_repr]. *)
Fixpoint py_repr (str_repr : string -> string) (v : json) : string :=
  match v with
  | JNull => "None"
  | JBool true => "True"
  | JBool false => "False"
  | JInt z => NilZero.string_of_int (Z.to_int z)
  | JFloat r => r
  | JStr s => str_repr s
  | JList l => "[" ++ String.concat ", " (map (py_repr str_repr) l) ++ "]"
  | JDict d =>
      "{" ++ String.concat ", "
               (map (fun kv : string * json => let (k, x) := kv in
                               str_repr k ++ ": " ++ py_repr str_repr x) d)
          ++ "}"
  end.

(** [str(v)], which is what an f-string field without a format
    specification inserts: a string is inserted as it is. *)
Definition py_str (str_repr : string -> string) (v : json) : string :=
  match v with
  | JStr s => s
  | _ => py_repr str_repr v
  end.

(** An optional string attribute ([str | None]) as a Python value. *)
Definition of_option (o : option string) : json :=
  match o with
  | Some s => JStr s
  | None => JNull
  end.

(** A Python [float] argument, by its [repr] (as in ["38.5"]). *)
Record pyfloat : Type := mkFloat { float_repr : string }.

(** ** External collaborators *)

(** What the billing SDK hands back (attributes read by the source). *)
Record ValidationResult : Type := mkValidation {
  is_valid : bool;
  invalid_reason : option string
}.

Record ConsumeResult : Type := mkConsume {
  success : bool;
  error_message : option string
}.

(** The external calls a run makes, in order. *)
Inductive Event : Type :=
| EvValidate (api_key : string)
| EvConsume (api_key : string) (amount_cents : Z) (usage_event_id : string)
| EvFetch (url : string).

Definition is_consume (e : Event) : bool :=
  match e with EvConsume _ _ _ => true | _ => false end.
Definition is_fetch (e : Event) : bool :=
  match e with EvFetch _ => true | _ => false end.
Definition is_validate (e : Event) : bool :=
  match e with EvValidate _ => true | _ => false end.

(** The environment: the interpreter's [repr] on strings, the identifiers
    [uuid.uuid4()] yields (the n-th draw), and the answers of the billing
    client and of the HTTP client.  An answer may depend on the calls made
    before it, so each oracle also receives the trace so far.
    [http_get_json] stands for the three calls inside the [try] of
    [make_nws_request] ([client.get], [raise_for_status], [json()]),
    which together either raise or yield the decoded body. *)
Record Env : Type := mkEnv {
  str_repr : string -> string;
  uuid4 : nat -> string;
  validate_api_key : list Event -> string -> Outcome ValidationResult;
  consume : list Event -> string -> Z -> string -> Outcome ConsumeResult;
  http_get_json : list Event -> string -> Outcome json
}.

(** ** State and the monad *)

(** [api_key_context] is a [ContextVar] with default [None]: it is either
    unset ([None] here) or bound to a value of type [str | None]. *)
Record World : Type := mkWorld {
  api_key_context : option (option string);
  uuid_count : nat;
  trace : list Event
}.

Definition M (A : Type) : Type := World -> Outcome A * World.

Definition ret {A} (a : A) : M A := fun w => (Returned a, w).

Definition raise {A} (e : exn) : M A := fun w => (Raised e, w).

Definition bind {A B} (m : M A) (f : A -> M B) : M B :=
  fun w =>
    match m w with
    | (Returned a, w') => f a w'
    | (Raised e, w') => (Raised e, w')
    end.

Notation "x <- m ;; k" := (bind m (fun x => k))
  (at level 61, m at next level, right associativity).

Definition lift {A} (o : Outcome A) : M A := fun w => (o, w).

(** [try: body except Exception as e: handler(e)]. *)
Definition try_except {A} (body : M A) (handler : exn -> M A) : M A :=
  fun w =>
    match body w with
    | (Returned a, w') => (Returned a, w')
    | (Raised e, w') => handler e w'
    end.

(** [try: body finally: fin]: [fin] runs on both exits; the outcome of
    [body] stands unless [fin] itself raises. *)
Definition try_finally {A} (body : M A) (fin : M unit) : M A :=
  fun w =>
    match body w with
    | (r, w') =>
        match fin w' with
        | (Returned _, w'') => (r, w'')
        | (Raised e, w'') => (Raised e, w'')
        end
    end.

(** The world after one more external call. *)
Definition add_event (w : World) (e : Event) : World :=
  mkWorld (api_key_context w) (uuid_count w) (trace w ++ [e]).

(** The world with the context variable in state [c]. *)
Definition with_context (w : World) (c : option (option string)) : World :=
  mkWorld c (uuid_count w) (trace w).

(** What [api_key_context.get()] reads: the bound value, or the default
    [None] while the variable is unset. *)
Definition ctx_value (w : World) : option string :=
  match api_key_context w with
  | Some v => v
  | None => None
  end.

(** *** ContextVar operations *)

(** A token remembers the state of the variable before [set]. *)
Definition Token : Type := option (option string).

Definition ctx_get : M (option string) :=
  fun w => (Returned (ctx_value w), w).

Definition ctx_set (v : option string) : M Token :=
  fun w => (Returned (api_key_context w), with_context w (Some v)).

(** [reset] puts the variable back to what the token remembers, whatever
    happened to it in between. *)
Definition ctx_reset (token : Token) : M unit :=
  fun w => (Returned tt, with_context w token).

(** ** Requests and responses *)

Record Request : Type := mkRequest { headers : list (string * string) }.

(** [request.headers.get(name)]: header names compare without regard to
    case; the first match wins; [None] when there is none. *)
Fixpoint headers_get (hs : list (string * string)) (name : string) : option string :=
  match hs with
  | [] => None
  | (k, v) :: hs' =>
      if String.eqb (str_lower k) (str_lower name) then Some v
      else headers_get hs' name
  end.

Record Response : Type := mkResponse { status_code : Z; body : json }.

Definition JSONResponse (content : json) (status : Z) : Response :=
  mkResponse status content.

(** The truth test [if api_key:] on a value of type [str | None]: the key
    when it is a non-empty string. *)
Definition truthy_key (api_key : option string) : option string :=
  match api_key with
  | Some k => if py_truthy (JStr k) then Some k else None
  | None => None
  end.

(** ** Constants *)

Definition NWS_API_BASE : string := "https://api.weather.gov".
Definition ALERT_COST_CENTS : Z := 2.
Definition FORECAST_COST_CENTS : Z := 3.
Definition API_KEY_HEADER : string := "X-AGENTPAY-API-KEY".

Definition MSG_KEY_MISSING : string := "Error: API Key missing".
Definition MSG_BAD_STATE : string :=
  "Error: Please provide a valid two-letter US state code.".
Definition MSG_NO_ALERTS : string := "No active alerts for this state.".
Definition MSG_NO_POINTS : string :=
  "Error: Unable to fetch forecast data for this location.".
Definition MSG_NO_FORECAST : string := "Error: Unable to fetch detailed forecast.".
Definition SEPARATOR : string := nl ++ "---" ++ nl.
Definition DEGREE : string := String "194"%char (String "176"%char EmptyString).

Fixpoint map_outcome {A B} (f : A -> Outcome B) (l : list A) : Outcome (list B) :=
  match l with
  | [] => Returned []
  | x :: l' =>
      obind (f x) (fun y => obind (map_outcome f l') (fun ys => Returned (y :: ys)))
  end.

Section Server.

Variable env : Env.

Definition str_of (v : json) : string := py_str (str_repr env) v.

(** *** Calls to the collaborators *)

Definition call_validate (api_key : string) : M ValidationResult :=
  fun w =>
    (validate_api_key env (trace w) api_key, add_event w (EvValidate api_key)).

Definition call_consume (api_key : string) (amount : Z) (usage_id : string)
  : M ConsumeResult :=
  fun w =>
    (consume env (trace w) api_key amount usage_id,
     add_event w (EvConsume api_key amount usage_id)).

Definition call_http (url : string) : M json :=
  fun w =>
    (http_get_json env (trace w) url, add_event w (EvFetch url)).

(** [str(uuid.uuid4())]: the next identifier of the generator. *)
Definition fresh_uuid : M string :=
  fun w =>
    (Returned (uuid4 env (uuid_count w)),
     mkWorld (api_key_context w) (S (uuid_count w)) (trace w)).

(** *** make_nws_request *)

(** Every exception inside the [try] becomes [None]; a [url] that is not
    a string makes the HTTP client raise before any request is sent. *)
Definition make_nws_request (url : json) : M json :=
  try_except
    (match url with
     | JStr u => call_http u
     | _ => raise TypeError
     end)
    (fun _ => ret JNull).

(** *** ApiKeyMiddleware.dispatch *)

(** The validation block: [Some response] when the middleware returns
    early, [None] when control falls through to the binding. *)
Definition validate_block (api_key : option string) : M (option Response) :=
  match truthy_key api_key with
  | Some k =>
      try_except
        (validation_result <- call_validate k ;;
         if negb (is_valid validation_result) then
           ret (Some (JSONResponse
                        (JDict [("error", JStr "Unauthorized");
                                ("message",
                                 JStr ("Invalid API Key: "
                                       ++ str_of (of_option (invalid_reason validation_result))))])
                        401))
         else ret None)
        (fun _ =>
           ret (Some (JSONResponse
                        (JDict [("error", JStr "Internal Server Error");
                                ("message", JStr "API Key validation failed")])
                        500)))
  | None => ret None
  end.

Definition dispatch (request : Request) (call_next : Request -> M Response)
  : M Response :=
  let api_key := headers_get (headers request) API_KEY_HEADER in
  early <- validate_block api_key ;;
  match early with
  | Some response => ret response
  | None =>
      token <- ctx_set api_key ;;
      response <- try_finally (call_next request) (ctx_reset token) ;;
      ret response
  end.

(** *** get_alerts *)

Definition format_alert (feature : json) : Outcome string :=
  obind (py_getitem feature "properties") (fun props =>
  obind (py_get props "event" (JStr "Unknown")) (fun event =>
  obind (py_get props "areaDesc" (JStr "Unknown")) (fun area =>
  obind (py_get props "severity" (JStr "Unknown")) (fun severity =>
  obind (py_get props "description" (JStr "No description available")) (fun description =>
  Returned (nl ++ "Event: " ++ str_of event ++ nl
               ++ "Area: " ++ str_of area ++ nl
               ++ "Severity: " ++ str_of severity ++ nl
               ++ "Description: " ++ str_of description ++ nl)))))).

(** [not data or key not in data]. *)
Definition absent_or_lacks (key : string) (data : json) : Outcome bool :=
  if negb (py_truthy data) then Returned true
  else obind (py_contains key data) (fun b => Returned (negb b)).

Definition format_alerts (data : json) : Outcome string :=
  obind (py_getitem data "features") (fun features =>
  obind (py_iter features) (fun items =>
  obind (map_outcome format_alert items) (fun alerts =>
  Returned (String.concat SEPARATOR alerts)))).

Definition get_alerts (state : string) : M string :=
  api_key <- ctx_get ;;
  match truthy_key api_key with
  | None => ret MSG_KEY_MISSING
  | Some api_key =>
      usage_id <- fresh_uuid ;;
      result <- call_consume api_key ALERT_COST_CENTS usage_id ;;
      if negb (success result) then
        ret ("Error: " ++ str_of (of_option (error_message result)))
      else if negb (py_truthy (JStr state)) || negb (py_len state =? 2) then
        ret MSG_BAD_STATE
      else
        let url := NWS_API_BASE ++ "/alerts/active/area/" ++ state in
        data <- make_nws_request (JStr url) ;;
        missing <- lift (absent_or_lacks "features" data) ;;
        if missing then ret MSG_NO_ALERTS
        else lift (format_alerts data)
  end.

(** *** get_forecast *)

Definition format_period (period : json) : Outcome string :=
  obind (py_getitem period "name") (fun name =>
  obind (py_getitem period "temperature") (fun temperature =>
  obind (py_getitem period "temperatureUnit") (fun unit_ =>
  obind (py_getitem period "windSpeed") (fun wind_speed =>
  obind (py_getitem period "windDirection") (fun wind_direction =>
  obind (py_getitem period "detailedForecast") (fun detailed =>
  Returned (nl ++ str_of name ++ ":" ++ nl
               ++ "Temperature: " ++ str_of temperature ++ DEGREE ++ str_of unit_ ++ nl
               ++ "Wind: " ++ str_of wind_speed ++ " " ++ str_of wind_direction ++ nl
               ++ "Forecast: " ++ str_of detailed ++ nl))))))).

Definition format_forecast (forecast_data : json) : Outcome string :=
  obind (py_getitem forecast_data "properties") (fun properties =>
  obind (py_getitem properties "periods") (fun periods =>
  obind (py_slice_to 5 periods) (fun first5 =>
  obind (py_iter first5) (fun items =>
  obind (map_outcome format_period items) (fun forecasts =>
  Returned (String.concat SEPARATOR forecasts)))))).

Definition get_forecast (latitude longitude : pyfloat) : M string :=
  api_key <- ctx_get ;;
  match truthy_key api_key with
  | None => ret MSG_KEY_MISSING
  | Some api_key =>
      usage_id <- fresh_uuid ;;
      result <- call_consume api_key FORECAST_COST_CENTS usage_id ;;
      if negb (success result) then
        ret ("Error: " ++ str_of (of_option (error_message result)))
      else
        let points_url :=
          NWS_API_BASE ++ "/points/" ++ float_repr latitude ++ "," ++ float_repr longitude in
        points_data <- make_nws_request (JStr points_url) ;;
        missing <- lift (absent_or_lacks "properties" points_data) ;;
        if missing then ret MSG_NO_POINTS
        else
          forecast_url <- lift (obind (py_getitem points_data "properties")
                                      (fun p => py_getitem p "forecast")) ;;
          forecast_data <- make_nws_request forecast_url ;;
          missing' <- lift (absent_or_lacks "properties" forecast_data) ;;
          if missing' then ret MSG_NO_FORECAST
          else lift (format_forecast forecast_data)
  end.

(** *** The RPC front end *)

Inductive ToolCall : Type :=
| CallGetAlerts (state : string)
| CallGetForecast (latitude longitude : pyfloat).

Definition run_tool (call : ToolCall) : M string :=
  match call with
  | CallGetAlerts state => get_alerts state
  | CallGetForecast latitude longitude => get_forecast latitude longitude
  end.

(** Modelled from the spec: the RPC front end ([mcp.sse_app()], mounted
    behind the middleware; its code is not part of this repository).  It
    invokes the named operation with its arguments, inside the request's
    scope, and hands the operation's text result back as the response. *)
Definition rpc_front_end (call : ToolCall) (request : Request) : M Response :=
  text <- run_tool call ;;
  ret (mkResponse 200 (JStr text)).

End Server.

(** ** Sample environments, requests and worlds *)

Definition quote_repr (s : string) : string := "'" ++ s ++ "'".

Definition numbered_uuid (n : nat) : string :=
  "usage-" ++ NilZero.string_of_uint (Nat.to_uint n).

(** An environment whose collaborators answer without regard to history. *)
Definition fixed_env (v : string -> Outcome ValidationResult)
           (c : Outcome ConsumeResult) (h : string -> Outcome json) : Env :=
  mkEnv quote_repr numbered_uuid (fun _ k => v k) (fun _ _ _ _ => c) (fun _ u => h u).

Definition accept_all (k : string) : Outcome ValidationResult :=
  Returned (mkValidation true None).
Definition charge_ok : Outcome ConsumeResult := Returned (mkConsume true None).
Definition provider_down (u : string) : Outcome json := Raised (ServiceError "timeout").

(** The billing service rejects every key as revoked. *)
Definition env_rejecting : Env :=
  fixed_env (fun _ => Returned (mkValidation false (Some "revoked"))) charge_ok provider_down.

(** The billing service cannot be reached for validation. *)
Definition env_validation_down : Env :=
  fixed_env (fun _ => Raised (ServiceError "connection refused")) charge_ok provider_down.

(** Valid keys, but the account cannot be charged. *)
Definition env_no_funds : Env :=
  fixed_env accept_all (Returned (mkConsume false (Some "Insufficient balance")))
            provider_down.

(** Valid keys, successful charges, data provider unreachable. *)
Definition env_provider_down : Env := fixed_env accept_all charge_ok provider_down.

(** Valid keys, successful charges; the points lookup answers with a
    forecast reference and the forecast has one period that carries a
    name only. *)
Definition env_sparse_forecast : Env :=
  fixed_env accept_all charge_ok
    (fun u =>
       if String.eqb u "https://api.weather.gov/points/38.5,-77.0" then
         Returned (JDict [("properties",
                           JDict [("forecast", JStr "https://api.weather.gov/gridpoints/LWX/1,2/forecast")])])
       else
         Returned (JDict [("properties",
                           JDict [("periods", JList [JDict [("name", JStr "Tonight")]])])])).

(** Valid keys, successful charges; the alert collection has one entry
    without the nested [properties] object. *)
Definition env_bare_feature : Env :=
  fixed_env accept_all charge_ok
    (fun _ => Returned (JDict [("features", JList [JDict [("id", JStr "urn:alert:1")]])])).

Definition world0 : World := mkWorld None 0 [].

(** A world in which a request scope has bound [key]. *)
Definition world_with_key (key : string) : World := mkWorld (Some (Some key)) 0 [].

Definition request_with_key (key : string) : Request :=
  mkRequest [("accept", "text/event-stream"); ("x-agentpay-api-key", key)].

Definition request_anonymous : Request :=
  mkRequest [("accept", "text/event-stream")].

(** The events a run added to the trace. *)
Definition new_events (w w' : World) : list Event :=
  skipn (List.length (trace w)) (trace w').

(** The cost the source charges for each tool. *)
Definition cost_of (call : ToolCall) : Z :=
  match call with
  | CallGetAlerts _ => ALERT_COST_CENTS
  | CallGetForecast _ _ => FORECAST_COST_CENTS
  end.

(** The world right after a tool has drawn its usage identifier and made
    its one consume call for [amount] on key [k]. *)
Definition charged (env : Env) (w : World) (k : string) (amount : Z) : World :=
  mkWorld (api_key_context w) (S (uuid_count w))
          (trace w ++ [EvConsume k amount (uuid4 env (uuid_count w))]).

(** [w'] differs from [w] by data-provider fetches only. *)
Definition only_fetches (w w' : World) : Prop :=
  api_key_context w' = api_key_context w /\
  uuid_count w' = uuid_count w /\
  exists evs, trace w' = (trace w ++ evs)%list /\ forallb is_fetch evs = true.

Definition fetch_only {A} (m : M A) : Prop :=
  forall w, only_fetches w (snd (m w)).

(** The part of [get_alerts] that follows a successful charge. *)
Definition alerts_after_charge (env : Env) (state : string) : M string :=
  if negb (py_truthy (JStr state)) || negb (py_len state =? 2) then
    ret MSG_BAD_STATE
  else
    data <- make_nws_request env
              (JStr (NWS_API_BASE ++ "/alerts/active/area/" ++ state)) ;;
    missing <- lift (absent_or_lacks "features" data) ;;
    if missing then ret MSG_NO_ALERTS
    else lift (format_alerts env data).

(** The part of [get_forecast] that follows a successful charge. *)
Definition forecast_after_charge (env : Env) (latitude longitude : pyfloat) : M string :=
  points_data <- make_nws_request env
                   (JStr (NWS_API_BASE ++ "/points/" ++ float_repr latitude
                                       ++ "," ++ float_repr longitude)) ;;
  missing <- lift (absent_or_lacks "properties" points_data) ;;
  if missing then ret MSG_NO_POINTS
  else
    forecast_url <- lift (obind (py_getitem points_data "properties")
                                (fun p => py_getitem p "forecast")) ;;
    forecast_data <- make_nws_request env forecast_url ;;
    missing' <- lift (absent_or_lacks "properties" forecast_data) ;;
    if missing' then ret MSG_NO_FORECAST
    else lift (format_forecast env forecast_data).

Definition after_charge (env : Env) (call : ToolCall) : M string :=
  match call with
  | CallGetAlerts state => alerts_after_charge env state
  | CallGetForecast latitude longitude => forecast_after_charge env latitude longitude
  end.

(** *** Shapes of documents and bounds on fetches *)

(** [v] is a dict that has every key of [keys]. *)
Definition has_keys (keys : list string) (v : json) : bool :=
  match v with
  | JDict d =>
      forallb (fun k => match dict_lookup k d with Some _ => true | None => false end) keys
  | _ => false
  end.

(** The keys [get_forecast] subscripts in a period, in the order of the
    f-string. *)
Definition PERIOD_KEYS : list string :=
  ["name"; "temperature"; "temperatureUnit"; "windSpeed"; "windDirection";
   "detailedForecast"].

(** [feature["properties"]] exists and is a dict. *)
Definition has_properties_dict (feature : json) : bool :=
  match py_getitem feature "properties" with
  | Returned (JDict _) => true
  | _ => false
  end.

(** [w'] differs from [w] by at most [n] data-provider fetches. *)
Definition at_most_fetches (n : nat) (w w' : World) : Prop :=
  api_key_context w' = api_key_context w /\
  uuid_count w' = uuid_count w /\
  exists evs,
    trace w' = (trace w ++ evs)%list /\
    forallb is_fetch evs = true /\
    (List.length evs <= n)%nat.

Definition fetches_within {A} (n : nat) (m : M A) : Prop :=
  forall w, at_most_fetches n w (snd (m w)).

(** The number of fetches each tool can make: the alerts lookup, or the
    points lookup followed by the forecast. *)
Definition fetch_bound (call : ToolCall) : nat :=
  match call with
  | CallGetAlerts _ => 1
  | CallGetForecast _ _ => 2
  end.

(** The URLs the tools build. *)
Definition alerts_url (state : string) : string :=
  NWS_API_BASE ++ "/alerts/active/area/" ++ state.

Definition points_url (latitude longitude : pyfloat) : string :=
  NWS_API_BASE ++ "/points/" ++ float_repr latitude ++ "," ++ float_repr longitude.

(** A points document whose forecast reference is [reference]. *)
Definition points_doc (reference : json) : json :=
  JDict [("properties", JDict [("forecast", reference)])].

(** A forecast document with the given periods. *)
Definition forecast_doc (periods : list json) : json :=
  JDict [("properties", JDict [("periods", JList periods)])].

(** An alert collection with the given entries. *)
Definition alerts_doc (features : list json) : json :=
  JDict [("features", JList features)].

Definition sample_period (name : string) : json :=
  JDict [("name", JStr name); ("temperature", JInt 72); ("temperatureUnit", JStr "F");
         ("windSpeed", JStr "5 mph"); ("windDirection", JStr "NW");
         ("detailedForecast", JStr "Clear.")].

Definition FORECAST_REF : string := "https://api.weather.gov/gridpoints/LWX/1,2/forecast".

(** Valid keys, successful charges; the points lookup answers with
    [reference] as the forecast reference and every other request fails. *)
Definition env_points_only (reference : json) : Env :=
  fixed_env accept_all charge_ok
    (fun u =>
       if String.eqb u "https://api.weather.gov/points/38.5,-77.0"
       then Returned (points_doc reference)
       else Raised (ServiceError "timeout")).

(** Valid keys, successful charges; the points lookup names
    [FORECAST_REF], which answers with [data]. *)
Definition env_forecast (data : json) : Env :=
  fixed_env accept_all charge_ok
    (fun u =>
       if String.eqb u "https://api.weather.gov/points/38.5,-77.0"
       then Returned (points_doc (JStr FORECAST_REF))
       else if String.eqb u FORECAST_REF then Returned data
       else Raised (ServiceError "not found")).

(** Valid keys, successful charges; every request answers with [data]. *)
Definition env_document (data : json) : Env :=
  fixed_env accept_all charge_ok (fun _ => Returned data).

(** Valid keys; the billing client raises on consume. *)
Definition env_consume_raises : Env :=
  fixed_env accept_all (Raised (ServiceError "billing unreachable")) provider_down.

(** What [make_nws_request] hands back for the URL [u] when the calls so
    far are [history]: the decoded document, or [None] on any failure. *)
Definition fetched (env : Env) (history : list Event) (u : string) : json :=
  match http_get_json env history u with
  | Returned data => data
  | Raised _ => JNull
  end.

Definition is_string (v : json) : bool :=
  match v with
  | JStr _ => true
  | _ => false
  end.

(** The rendering of one alert field: the value under [key], or the
    placeholder when the key is missing. *)
Definition field_or (env : Env) (d : list (string * json)) (key placeholder : string)
  : string :=
  str_of env (match dict_lookup key d with
              | Some x => x
              | None => JStr placeholder
              end).

(** Eight periods of which only the first five are well formed. *)
Definition eight_periods : list json :=
  [sample_period "Tonight"; sample_period "Monday"; sample_period "Monday Night";
   sample_period "Tuesday"; sample_period "Tuesday Night"; JNull; JInt 0; JDict []].

(** Numbers and booleans: values that support neither [in] nor
    subscripting. *)
Definition is_scalar (v : json) : bool :=
  match v with
  | JBool _ | JInt _ | JFloat _ => true
  | _ => false
  end.

(** *** Statements of the specification that the code does not meet,
    written down as they are worded *)

(** "If consume fails, the operation returns the consume failure's message
    as its caller-visible text result and performs no fetch." *)
Definition consume_failure_message_verbatim
           (env : Env) (call : ToolCall) (w : World) : Prop :=
  forall k cr msg,
    truthy_key (ctx_value w) = Some k ->
    consume env (trace w) k (cost_of call) (uuid4 env (uuid_count w)) = Returned cr ->
    success cr = false ->
    error_message cr = Some msg ->
    fst (run_tool env call w) = Returned msg /\
    filter is_fetch (new_events w (snd (run_tool env call w))) = [].

(** "get_alerts with region code ZZ, after a successful consume, returns
    an input-validation message, performs no fetch, and one usage event
    was recorded." *)
Definition region_ZZ_rejected (env : Env) (w : World) : Prop :=
  forall k cr,
    truthy_key (ctx_value w) = Some k ->
    consume env (trace w) k ALERT_COST_CENTS (uuid4 env (uuid_count w)) = Returned cr ->
    success cr = true ->
    fst (get_alerts env "ZZ" w) = Returned MSG_BAD_STATE /\
    filter is_fetch (new_events w (snd (get_alerts env "ZZ" w))) = [] /\
    List.length (filter is_consume (new_events w (snd (get_alerts env "ZZ" w)))) = 1%nat.

(** "A request with no credential header is not rejected; the operation
    returns the literal [literal] and calls neither the billing client nor
    the data provider." *)
Definition anonymous_request_answer
           (literal : string) (env : Env) (request : Request) (call : ToolCall)
           (w : World) : Prop :=
  headers_get (headers request) API_KEY_HEADER = None ->
  fst (dispatch env request (rpc_front_end env call) w)
    = Returned (mkResponse 200 (JStr literal)) /\
  new_events w (snd (dispatch env request (rpc_front_end env call) w)) = [].

(** "For every document the data provider returns, the operation returns
    a text value." *)
Definition tool_always_returns_text (env : Env) (call : ToolCall) (w : World) : Prop :=
  exists text, fst (run_tool env call w) = Returned text.

(** ** The middleware *)

Section MiddlewareFacts.

Variable env : Env.

Lemma str_of_some (s : string) : str_of env (of_option (Some s)) = s.
Proof. reflexivity. Qed.

(** Without a non-empty header value the validation block does nothing. *)
Lemma validate_block_skip (api_key : option string) (w : World) :
  truthy_key api_key = None ->
  validate_block env api_key w = (Returned None, w).
Proof.
  intros H. unfold validate_block. rewrite H. reflexivity.
Qed.

(** With a non-empty header value it makes exactly one validation call
    and never raises. *)
Lemma validate_block_call (api_key : option string) (k : string) (w : World) :
  truthy_key api_key = Some k ->
  exists early,
    validate_block env api_key w = (Returned early, add_event w (EvValidate k)).
Proof.
  intros H. unfold validate_block, try_except, bind, call_validate, ret.
  rewrite H.
  destruct (validate_api_key env (trace w) k) as [vr | e].
  - destruct (is_valid vr); simpl; eexists; reflexivity.
  - eexists; reflexivity.
Qed.

(** The validation block leaves the context variable and the uuid
    generator alone. *)
Lemma validate_block_frame (api_key : option string) (w : World) :
  exists early w',
    validate_block env api_key w = (Returned early, w') /\
    api_key_context w' = api_key_context w /\
    uuid_count w' = uuid_count w.
Proof.
  destruct (truthy_key api_key) as [k |] eqn:Hk.
  - destruct (validate_block_call api_key k w Hk) as [early Hv].
    exists early, (add_event w (EvValidate k)). auto.
  - exists None, w. split; [apply validate_block_skip; exact Hk | auto].
Qed.

(** What [dispatch] does once validation lets the request through. *)
Lemma dispatch_pass (request : Request) (call_next : Request -> M Response)
      (w w1 : World) :
  validate_block env (headers_get (headers request) API_KEY_HEADER) w
    = (Returned None, w1) ->
  dispatch env request call_next w =
    (fst (call_next request
            (with_context w1 (Some (headers_get (headers request) API_KEY_HEADER)))),
     with_context
       (snd (call_next request
               (with_context w1 (Some (headers_get (headers request) API_KEY_HEADER)))))
       (api_key_context w1)).
Proof.
  intros Hv. unfold dispatch, bind. rewrite Hv.
  unfold ctx_set, try_finally, ctx_reset, ret.
  destruct (call_next request _) as [[r | e] w2]; reflexivity.
Qed.

Lemma dispatch_early (request : Request) (call_next : Request -> M Response)
      (w w1 : World) (response : Response) :
  validate_block env (headers_get (headers request) API_KEY_HEADER) w
    = (Returned (Some response), w1) ->
  dispatch env request call_next w = (Returned response, w1).
Proof.
  intros Hv. unfold dispatch, bind. rewrite Hv. reflexivity.
Qed.

(** C1. A request whose credential header holds a non-empty key that the
    billing client reports invalid is answered by the middleware itself:
    status 401, body [{error: "Unauthorized", message: "Invalid API Key:
    <reason>"}] with the reason rendered by [str].  The answer and the
    final state do not depend on the downstream stage, and the only
    external call made is the validation: no tool runs, nothing is
    consumed, nothing is fetched. *)
Theorem dispatch_invalid_key_unauthorized :
  forall (request : Request) (call_next : Request -> M Response) (w : World)
         (k : string) (vr : ValidationResult),
    truthy_key (headers_get (headers request) API_KEY_HEADER) = Some k ->
    validate_api_key env (trace w) k = Returned vr ->
    is_valid vr = false ->
    dispatch env request call_next w =
      (Returned
         (JSONResponse
            (JDict [("error", JStr "Unauthorized");
                    ("message",
                     JStr ("Invalid API Key: " ++ str_of env (of_option (invalid_reason vr))))])
            401),
       add_event w (EvValidate k)).
Proof.
  intros request call_next w k vr Hk Hv Hinv.
  apply dispatch_early.
  unfold validate_block, try_except, bind, call_validate, ret.
  rewrite Hk, Hv, Hinv. reflexivity.
Qed.

(** C6. When the validation call itself raises, the middleware answers
    with status 500 and body [{error: "Internal Server Error", message:
    "API Key validation failed"}]; the downstream stage is not invoked. *)
Theorem dispatch_validation_failure_500 :
  forall (request : Request) (call_next : Request -> M Response) (w : World)
         (k : string) (e : exn),
    truthy_key (headers_get (headers request) API_KEY_HEADER) = Some k ->
    validate_api_key env (trace w) k = Raised e ->
    dispatch env request call_next w =
      (Returned
         (JSONResponse
            (JDict [("error", JStr "Internal Server Error");
                    ("message", JStr "API Key validation failed")])
            500),
       add_event w (EvValidate k)).
Proof.
  intros request call_next w k e Hk Hv.
  apply dispatch_early.
  unfold validate_block, try_except, bind, call_validate, ret.
  rewrite Hk, Hv. reflexivity.
Qed.

(** C8. For every request and every downstream stage: the context
    variable after [dispatch] is in the state it was in before, on every
    exit path; and whenever validation lets the request through, the
    downstream stage runs in a world where the variable is bound to the
    header value (present or absent), its outcome, a response or an
    exception, is passed on unchanged, and the binding is undone. *)
Theorem dispatch_binds_then_releases :
  forall (request : Request) (call_next : Request -> M Response) (w : World),
    api_key_context (snd (dispatch env request call_next w)) = api_key_context w
    /\ match validate_block env (headers_get (headers request) API_KEY_HEADER) w with
       | (Returned None, w1) =>
           let api_key := headers_get (headers request) API_KEY_HEADER in
           let bound := with_context w1 (Some api_key) in
           ctx_value bound = api_key
           /\ fst (dispatch env request call_next w) = fst (call_next request bound)
           /\ snd (dispatch env request call_next w)
              = with_context (snd (call_next request bound)) (api_key_context w)
       | (Returned (Some response), w1) =>
           dispatch env request call_next w = (Returned response, w1)
       | (Raised _, _) => False
       end.
Proof.
  intros request call_next w.
  destruct (validate_block_frame (headers_get (headers request) API_KEY_HEADER) w)
    as (early & w1 & Hv & Hctx & Hcnt).
  rewrite Hv. destruct early as [response |].
  - rewrite (dispatch_early _ call_next _ _ _ Hv). simpl. auto.
  - rewrite (dispatch_pass _ call_next _ _ Hv). simpl.
    rewrite Hctx. auto.
Qed.

End MiddlewareFacts.

(** ** Traces *)

Lemma new_events_app (w w' : World) (evs : list Event) :
  trace w' = (trace w ++ evs)%list -> new_events w w' = evs.
Proof.
  intros H. unfold new_events. rewrite H.
  rewrite skipn_app, skipn_all, Nat.sub_diag. reflexivity.
Qed.

Lemma new_events_same (w : World) : new_events w w = [].
Proof.
  apply new_events_app. rewrite app_nil_r. reflexivity.
Qed.

Lemma filter_consume_fetches (evs : list Event) :
  forallb is_fetch evs = true -> filter is_consume evs = [].
Proof.
  induction evs as [| e evs IH]; simpl; [reflexivity |].
  intros H. apply andb_prop in H. destruct H as [He Hevs].
  destruct e; simpl in *; try discriminate. auto.
Qed.

Lemma with_context_same (w : World) : with_context w (api_key_context w) = w.
Proof. destruct w; reflexivity. Qed.

Lemma only_fetches_refl (w : World) : only_fetches w w.
Proof.
  repeat split. exists []. rewrite app_nil_r. auto.
Qed.

Lemma only_fetches_trans (w1 w2 w3 : World) :
  only_fetches w1 w2 -> only_fetches w2 w3 -> only_fetches w1 w3.
Proof.
  intros (Hc1 & Hn1 & evs1 & Ht1 & Hf1) (Hc2 & Hn2 & evs2 & Ht2 & Hf2).
  repeat split; try congruence.
  exists (evs1 ++ evs2)%list. split.
  - rewrite Ht2, Ht1, app_assoc. reflexivity.
  - rewrite forallb_app, Hf1, Hf2. reflexivity.
Qed.

Lemma only_fetches_event (w : World) (url : string) :
  only_fetches w (add_event w (EvFetch url)).
Proof.
  repeat split. exists [EvFetch url]. auto.
Qed.

(** ** Computations that only fetch *)

Lemma fetch_only_ret {A} (a : A) : fetch_only (ret a).
Proof. intros w. apply only_fetches_refl. Qed.

Lemma fetch_only_lift {A} (o : Outcome A) : fetch_only (lift o).
Proof. intros w. apply only_fetches_refl. Qed.

Lemma fetch_only_bind {A B} (m : M A) (f : A -> M B) :
  fetch_only m -> (forall a, fetch_only (f a)) -> fetch_only (bind m f).
Proof.
  intros Hm Hf w. unfold bind.
  specialize (Hm w). destruct (m w) as [[a | e] w1]; simpl in *.
  - eapply only_fetches_trans; [exact Hm | apply Hf].
  - exact Hm.
Qed.

Lemma fetch_only_if {A} (b : bool) (m1 m2 : M A) :
  fetch_only m1 -> fetch_only m2 -> fetch_only (if b then m1 else m2).
Proof. destruct b; auto. Qed.

Create HintDb fetches.
#[local] Hint Resolve fetch_only_ret fetch_only_lift fetch_only_if : fetches.

(** ** The tools *)

Section ToolFacts.

Variable env : Env.


Lemma make_nws_request_fetch_only (url : json) : fetch_only (make_nws_request env url).
Proof.
  intros w. unfold make_nws_request, try_except, call_http, raise, ret.
  destruct url; simpl; try apply only_fetches_refl.
  destruct (http_get_json env (trace w) s); simpl; apply only_fetches_event.
Qed.

#[local] Hint Resolve make_nws_request_fetch_only : fetches.

(** A fetch that fails in any way yields [None]. *)
Lemma make_nws_request_failure (u : string) (e : exn) (w : World) :
  http_get_json env (trace w) u = Raised e ->
  make_nws_request env (JStr u) w = (Returned JNull, add_event w (EvFetch u)).
Proof.
  intros H. unfold make_nws_request, try_except, call_http. rewrite H. reflexivity.
Qed.

(** Without a usable key in the context a tool answers at once and
    touches nothing. *)
Lemma run_tool_without_key (call : ToolCall) (w : World) :
  truthy_key (ctx_value w) = None ->
  run_tool env call w = (Returned MSG_KEY_MISSING, w).
Proof.
  intros H. destruct call; simpl;
    [unfold get_alerts | unfold get_forecast];
    unfold bind, ctx_get; rewrite H; reflexivity.
Qed.

Lemma after_charge_fetch_only (call : ToolCall) : fetch_only (after_charge env call).
Proof.
  destruct call; simpl.
  - unfold alerts_after_charge.
    apply fetch_only_if; auto with fetches.
    apply fetch_only_bind; auto with fetches. intros data.
    apply fetch_only_bind; auto with fetches.
  - unfold forecast_after_charge.
    apply fetch_only_bind; auto with fetches. intros points_data.
    apply fetch_only_bind; auto with fetches. intros missing.
    apply fetch_only_if; auto with fetches.
    apply fetch_only_bind; auto with fetches. intros forecast_url.
    apply fetch_only_bind; auto with fetches. intros forecast_data.
    apply fetch_only_bind; auto with fetches.
Qed.

(** With a usable key in the context, a tool draws one identifier, makes
    one consume call for its fixed cost, and goes on only if the charge
    succeeded. *)
Lemma run_tool_with_key (call : ToolCall) (w : World) (k : string) :
  truthy_key (ctx_value w) = Some k ->
  run_tool env call w =
    match consume env (trace w) k (cost_of call) (uuid4 env (uuid_count w)) with
    | Raised e => (Raised e, charged env w k (cost_of call))
    | Returned cr =>
        if success cr then after_charge env call (charged env w k (cost_of call))
        else (Returned ("Error: " ++ str_of env (of_option (error_message cr))),
              charged env w k (cost_of call))
    end.
Proof.
  intros H. destruct call; simpl;
    [unfold get_alerts | unfold get_forecast];
    unfold bind at 1; unfold ctx_get; rewrite H;
    unfold bind at 1; unfold fresh_uuid;
    unfold bind at 1; unfold call_consume; simpl;
    fold (charged env w k ALERT_COST_CENTS);
    fold (charged env w k FORECAST_COST_CENTS).
  - destruct (consume env (trace w) k ALERT_COST_CENTS (uuid4 env (uuid_count w)))
      as [cr | e]; [| reflexivity].
    destruct (success cr); reflexivity.
  - destruct (consume env (trace w) k FORECAST_COST_CENTS (uuid4 env (uuid_count w)))
      as [cr | e]; [| reflexivity].
    destruct (success cr); reflexivity.
Qed.

(** The full effect of a tool that reaches the metering step: exactly one
    identifier drawn, the consume call first, then fetches only. *)
Lemma run_tool_with_key_effect (call : ToolCall) (w : World) (k : string) :
  truthy_key (ctx_value w) = Some k ->
  api_key_context (snd (run_tool env call w)) = api_key_context w /\
  uuid_count (snd (run_tool env call w)) = S (uuid_count w) /\
  exists evs,
    trace (snd (run_tool env call w))
      = (trace w ++ EvConsume k (cost_of call) (uuid4 env (uuid_count w)) :: evs)%list /\
    forallb is_fetch evs = true.
Proof.
  intros H. rewrite (run_tool_with_key call w k H).
  assert (Hstop : forall (r : Outcome string),
             api_key_context (snd (r, charged env w k (cost_of call))) = api_key_context w /\
             uuid_count (snd (r, charged env w k (cost_of call))) = S (uuid_count w) /\
             exists evs,
               trace (snd (r, charged env w k (cost_of call)))
               = (trace w ++ EvConsume k (cost_of call) (uuid4 env (uuid_count w)) :: evs)%list /\
               forallb is_fetch evs = true).
  { intros r. simpl. repeat split. exists []. auto. }
  destruct (consume env (trace w) k (cost_of call) (uuid4 env (uuid_count w)))
    as [cr | e]; [| apply Hstop].
  destruct (success cr); [| apply Hstop].
  destruct (after_charge_fetch_only call (charged env w k (cost_of call)))
    as (Hc & Hn & evs & Ht & Hf).
  repeat split.
  - rewrite Hc. reflexivity.
  - rewrite Hn. reflexivity.
  - exists evs. split; [| exact Hf].
    rewrite Ht. simpl. rewrite <- app_assoc. reflexivity.
Qed.

(** A failed charge ends the tool on the spot. *)
Lemma run_tool_charge_refused (call : ToolCall) (w : World) (k : string)
      (cr : ConsumeResult) :
  truthy_key (ctx_value w) = Some k ->
  consume env (trace w) k (cost_of call) (uuid4 env (uuid_count w)) = Returned cr ->
  success cr = false ->
  run_tool env call w =
    (Returned ("Error: " ++ str_of env (of_option (error_message cr))),
     charged env w k (cost_of call)).
Proof.
  intros Hk Hc Hs. rewrite (run_tool_with_key call w k Hk), Hc, Hs. reflexivity.
Qed.

Lemma new_events_charged (w : World) (k : string) (amount : Z) :
  new_events w (charged env w k amount)
    = [EvConsume k amount (uuid4 env (uuid_count w))].
Proof. apply new_events_app. reflexivity. Qed.

(** A request without a usable key passes the middleware untouched, with
    no validation call, and a tool behind it answers that the key is
    missing, leaving the world as it found it. *)
Lemma dispatch_without_key (request : Request) (w : World) :
  truthy_key (headers_get (headers request) API_KEY_HEADER) = None ->
  (forall call_next,
      dispatch env request call_next w =
        (fst (call_next request
                (with_context w (Some (headers_get (headers request) API_KEY_HEADER)))),
         with_context
           (snd (call_next request
                   (with_context w (Some (headers_get (headers request) API_KEY_HEADER)))))
           (api_key_context w))) /\
  (forall call,
      dispatch env request (rpc_front_end env call) w =
        (Returned (mkResponse 200 (JStr MSG_KEY_MISSING)), w)).
Proof.
  intros Hk.
  assert (Hpass : forall call_next,
             dispatch env request call_next w =
               (fst (call_next request
                       (with_context w (Some (headers_get (headers request) API_KEY_HEADER)))),
                with_context
                  (snd (call_next request
                          (with_context w (Some (headers_get (headers request) API_KEY_HEADER)))))
                  (api_key_context w))).
  { intros call_next. apply dispatch_pass. apply validate_block_skip. exact Hk. }
  split; [exact Hpass |].
  intros call. rewrite Hpass.
  unfold rpc_front_end, bind.
  rewrite run_tool_without_key by exact Hk.
  destruct w; reflexivity.
Qed.

End ToolFacts.

(** ** Metering *)

(** C7. A tool that reaches the metering step (a non-empty key is bound
    in the context) makes exactly one consume call, for 2 cents in
    [get_alerts] and 3 cents in [get_forecast], with the identifier it has
    just drawn from the generator; the generator advances by exactly one,
    so the identifier is issued once, and there is no second consume call
    whatever the first one answers. *)
Theorem metering_charges_once :
  forall (env : Env) (call : ToolCall) (w : World) (k : string),
    truthy_key (ctx_value w) = Some k ->
    filter is_consume (new_events w (snd (run_tool env call w)))
      = [EvConsume k
                   (match call with
                    | CallGetAlerts _ => 2
                    | CallGetForecast _ _ => 3
                    end)
                   (uuid4 env (uuid_count w))]
    /\ uuid_count (snd (run_tool env call w)) = S (uuid_count w).
Proof.
  intros env call w k Hk.
  destruct (run_tool_with_key_effect env call w k Hk) as (_ & Hn & evs & Ht & Hf).
  split; [| exact Hn].
  rewrite (new_events_app _ _ _ Ht). simpl.
  rewrite (filter_consume_fetches evs Hf).
  destruct call; reflexivity.
Qed.

Lemma metering_charges_once_witness :
  filter is_consume
         (new_events (world_with_key "key-1")
                     (snd (run_tool env_provider_down (CallGetAlerts "CA")
                                    (world_with_key "key-1"))))
    = [EvConsume "key-1" 2 (uuid4 env_provider_down 0)]
  /\ uuid_count (snd (run_tool env_provider_down (CallGetAlerts "CA")
                               (world_with_key "key-1"))) = 1%nat.
Proof.
  apply (metering_charges_once env_provider_down (CallGetAlerts "CA")
                               (world_with_key "key-1") "key-1").
  reflexivity.
Defined.

(** Two calls in a row use different identifiers as long as the
    generator does not repeat itself. *)
Lemma consecutive_calls_fresh_ids :
  forall (env : Env) (call1 : ToolCall) (w : World) (k1 k2 : string),
    (forall m n, uuid4 env m = uuid4 env n -> m = n) ->
    truthy_key (ctx_value w) = Some k1 ->
    truthy_key (ctx_value (snd (run_tool env call1 w))) = Some k2 ->
    uuid4 env (uuid_count w) <> uuid4 env (uuid_count (snd (run_tool env call1 w))).
Proof.
  intros env call1 w k1 k2 Hinj Hk1 Hk2 Heq.
  destruct (run_tool_with_key_effect env call1 w k1 Hk1) as (_ & Hn & _).
  apply Hinj in Heq. rewrite Hn in Heq. lia.
Qed.

(** C2, as the code has it.  When the consume call answers with a
    failure, [get_alerts] and [get_forecast] return the text "Error: "
    followed by the failure's message (rendered by [str]), and stop right
    after the charge attempt: no data-provider fetch is made. *)
Theorem consume_failure_returns_error_text :
  forall (env : Env) (call : ToolCall) (w : World) (k : string) (cr : ConsumeResult),
    truthy_key (ctx_value w) = Some k ->
    consume env (trace w) k (cost_of call) (uuid4 env (uuid_count w)) = Returned cr ->
    success cr = false ->
    fst (run_tool env call w)
      = Returned ("Error: " ++ str_of env (of_option (error_message cr)))
    /\ new_events w (snd (run_tool env call w))
       = [EvConsume k (cost_of call) (uuid4 env (uuid_count w))]
    /\ filter is_fetch (new_events w (snd (run_tool env call w))) = [].
Proof.
  intros env call w k cr Hk Hc Hs.
  rewrite (run_tool_charge_refused env call w k cr Hk Hc Hs). simpl.
  rewrite new_events_charged. auto.
Qed.

Lemma consume_failure_returns_error_text_witness :
  fst (run_tool env_no_funds (CallGetForecast (mkFloat "38.5") (mkFloat "-77.0"))
                (world_with_key "key-1"))
    = Returned "Error: Insufficient balance"
  /\ new_events (world_with_key "key-1")
                (snd (run_tool env_no_funds
                               (CallGetForecast (mkFloat "38.5") (mkFloat "-77.0"))
                               (world_with_key "key-1")))
     = [EvConsume "key-1" 3 "usage-0"]
  /\ filter is_fetch
            (new_events (world_with_key "key-1")
                        (snd (run_tool env_no_funds
                                       (CallGetForecast (mkFloat "38.5") (mkFloat "-77.0"))
                                       (world_with_key "key-1")))) = [].
Proof.
  apply (consume_failure_returns_error_text
           env_no_funds (CallGetForecast (mkFloat "38.5") (mkFloat "-77.0"))
           (world_with_key "key-1") "key-1"
           (mkConsume false (Some "Insufficient balance")));
    reflexivity.
Defined.

(** C2, as worded, fails: with the failure message "Insufficient balance"
    the caller sees "Error: Insufficient balance", not the message
    itself. *)
Lemma consume_failure_message_is_prefixed :
  ~ consume_failure_message_verbatim env_no_funds (CallGetAlerts "CA")
      (world_with_key "key-1").
Proof.
  intros H.
  destruct (H "key-1" (mkConsume false (Some "Insufficient balance"))
              "Insufficient balance" eq_refl eq_refl eq_refl eq_refl) as [Hmsg _].
  vm_compute in Hmsg. discriminate Hmsg.
Qed.

(** C3, as the code has it.  After a successful charge, [get_alerts]
    with a region code that is empty or whose length is not two returns
    the validation message, makes no fetch, and the one usage event of the
    charge stays recorded. *)
Theorem bad_length_state_rejected_after_charge :
  forall (env : Env) (state : string) (w : World) (k : string) (cr : ConsumeResult),
    truthy_key (ctx_value w) = Some k ->
    consume env (trace w) k ALERT_COST_CENTS (uuid4 env (uuid_count w)) = Returned cr ->
    success cr = true ->
    py_len state <> 2 ->
    fst (get_alerts env state w)
      = Returned "Error: Please provide a valid two-letter US state code."
    /\ filter is_fetch (new_events w (snd (get_alerts env state w))) = []
    /\ filter is_consume (new_events w (snd (get_alerts env state w)))
       = [EvConsume k 2 (uuid4 env (uuid_count w))].
Proof.
  intros env state w k cr Hk Hc Hs Hlen.
  change (get_alerts env state) with (run_tool env (CallGetAlerts state)).
  rewrite (run_tool_with_key env (CallGetAlerts state) w k Hk).
  simpl cost_of. rewrite Hc, Hs. simpl after_charge.
  unfold alerts_after_charge.
  replace (py_len state =? 2) with false
    by (symmetry; apply Z.eqb_neq; exact Hlen).
  rewrite orb_true_r. unfold ret. simpl fst. simpl snd.
  rewrite new_events_charged. auto.
Qed.

Lemma bad_length_state_rejected_after_charge_witness :
  fst (get_alerts env_provider_down "ZZZ" (world_with_key "key-1"))
    = Returned "Error: Please provide a valid two-letter US state code."
  /\ filter is_fetch
            (new_events (world_with_key "key-1")
                        (snd (get_alerts env_provider_down "ZZZ" (world_with_key "key-1"))))
     = []
  /\ filter is_consume
            (new_events (world_with_key "key-1")
                        (snd (get_alerts env_provider_down "ZZZ" (world_with_key "key-1"))))
     = [EvConsume "key-1" 2 (uuid4 env_provider_down 0)].
Proof.
  apply (bad_length_state_rejected_after_charge
           env_provider_down "ZZZ" (world_with_key "key-1") "key-1"
           (mkConsume true None));
    try reflexivity.
  vm_compute. discriminate.
Defined.

(** What the code does with "ZZ": two characters, so the check passes and
    the alerts of area ZZ are requested from the data provider. *)
Lemma get_alerts_ZZ_run :
  py_len "ZZ" = 2
  /\ get_alerts env_provider_down "ZZ" (world_with_key "key-1")
     = (Returned "No active alerts for this state.",
        mkWorld (Some (Some "key-1")) 1
                [EvConsume "key-1" 2 "usage-0";
                 EvFetch "https://api.weather.gov/alerts/active/area/ZZ"]).
Proof. split; reflexivity. Qed.

(** C3, as worded, fails: "ZZ" is not turned down and a fetch is made. *)
Lemma region_ZZ_is_fetched :
  ~ region_ZZ_rejected env_provider_down (world_with_key "key-1").
Proof.
  intros H.
  destruct (H "key-1" (mkConsume true None) eq_refl eq_refl eq_refl)
    as (_ & Hfetch & _).
  vm_compute in Hfetch. discriminate Hfetch.
Qed.

(** ** Requests without a usable credential *)

(** C5, as the code has it.  A request with no credential header is not
    rejected: no validation call is made, the downstream stage runs with
    the context bound to [None] and its outcome is passed on.  A metered
    tool invoked behind the middleware returns the literal
    "Error: API Key missing", and the run makes no external call at all:
    no consume, no fetch. *)
Theorem anonymous_request_reaches_tool :
  forall (env : Env) (request : Request) (call : ToolCall) (w : World),
    headers_get (headers request) API_KEY_HEADER = None ->
    (forall call_next,
        dispatch env request call_next w =
          (fst (call_next request (with_context w (Some None))),
           with_context (snd (call_next request (with_context w (Some None))))
                        (api_key_context w)))
    /\ fst (dispatch env request (rpc_front_end env call) w)
       = Returned (mkResponse 200 (JStr "Error: API Key missing"))
    /\ new_events w (snd (dispatch env request (rpc_front_end env call) w)) = [].
Proof.
  intros env request call w Hh.
  assert (Hk : truthy_key (headers_get (headers request) API_KEY_HEADER) = None)
    by (rewrite Hh; reflexivity).
  destruct (dispatch_without_key env request w Hk) as [Hpass Htool].
  rewrite Hh in Hpass.
  split; [exact Hpass |].
  rewrite Htool. simpl. split; [reflexivity | apply new_events_same].
Qed.

Lemma anonymous_request_reaches_tool_witness :
  (forall call_next,
      dispatch env_no_funds request_anonymous call_next world0 =
        (fst (call_next request_anonymous (with_context world0 (Some None))),
         with_context (snd (call_next request_anonymous (with_context world0 (Some None))))
                      (api_key_context world0)))
  /\ fst (dispatch env_no_funds request_anonymous
                   (rpc_front_end env_no_funds (CallGetAlerts "CA")) world0)
     = Returned (mkResponse 200 (JStr "Error: API Key missing"))
  /\ new_events world0
                (snd (dispatch env_no_funds request_anonymous
                               (rpc_front_end env_no_funds (CallGetAlerts "CA")) world0))
     = [].
Proof.
  apply (anonymous_request_reaches_tool env_no_funds request_anonymous
                                        (CallGetAlerts "CA") world0).
  reflexivity.
Defined.

(** C5, as worded, fails: the text the tool returns is not the literal
    "missing credential". *)
Lemma missing_credential_literal_differs :
  ~ anonymous_request_answer "missing credential" env_no_funds request_anonymous
      (CallGetAlerts "CA") world0.
Proof.
  intros H. destruct (H eq_refl) as [Htext _].
  vm_compute in Htext. discriminate Htext.
Qed.

(** C10. A request whose credential header is present but empty is
    treated like one without the header: no validation call, no
    rejection, the downstream stage runs with the empty string bound in
    the context, and a metered tool behind the middleware sees no usable
    key: it returns the missing-key text and the run makes no external
    call (no validation, no consume, no fetch). *)
Theorem empty_key_header_treated_as_absent :
  forall (env : Env) (request : Request) (call : ToolCall) (w : World),
    headers_get (headers request) API_KEY_HEADER = Some "" ->
    (forall call_next,
        dispatch env request call_next w =
          (fst (call_next request (with_context w (Some (Some "")))),
           with_context (snd (call_next request (with_context w (Some (Some "")))))
                        (api_key_context w)))
    /\ dispatch env request (rpc_front_end env call) w
       = (Returned (mkResponse 200 (JStr MSG_KEY_MISSING)), w)
    /\ new_events w (snd (dispatch env request (rpc_front_end env call) w)) = [].
Proof.
  intros env request call w Hh.
  assert (Hk : truthy_key (headers_get (headers request) API_KEY_HEADER) = None)
    by (rewrite Hh; reflexivity).
  destruct (dispatch_without_key env request w Hk) as [Hpass Htool].
  rewrite Hh in Hpass.
  split; [exact Hpass |].
  rewrite Htool. simpl. split; [reflexivity | apply new_events_same].
Qed.

Lemma empty_key_header_treated_as_absent_witness :
  (forall call_next,
      dispatch env_rejecting (request_with_key "") call_next world0 =
        (fst (call_next (request_with_key "") (with_context world0 (Some (Some "")))),
         with_context
           (snd (call_next (request_with_key "") (with_context world0 (Some (Some "")))))
           (api_key_context world0)))
  /\ dispatch env_rejecting (request_with_key "")
              (rpc_front_end env_rejecting (CallGetForecast (mkFloat "38.5") (mkFloat "-77.0")))
              world0
     = (Returned (mkResponse 200 (JStr MSG_KEY_MISSING)), world0)
  /\ new_events world0
                (snd (dispatch env_rejecting (request_with_key "")
                               (rpc_front_end env_rejecting
                                  (CallGetForecast (mkFloat "38.5") (mkFloat "-77.0")))
                               world0))
     = [].
Proof.
  apply (empty_key_header_treated_as_absent
           env_rejecting (request_with_key "")
           (CallGetForecast (mkFloat "38.5") (mkFloat "-77.0")) world0).
  reflexivity.
Defined.

(** ** Rejections by the middleware, on sample requests *)

Lemma dispatch_invalid_key_unauthorized_witness :
  dispatch env_rejecting (request_with_key "key-1")
           (rpc_front_end env_rejecting (CallGetAlerts "CA")) world0
    = (Returned
         (JSONResponse
            (JDict [("error", JStr "Unauthorized");
                    ("message", JStr "Invalid API Key: revoked")])
            401),
       add_event world0 (EvValidate "key-1")).
Proof.
  apply (dispatch_invalid_key_unauthorized
           env_rejecting (request_with_key "key-1")
           (rpc_front_end env_rejecting (CallGetAlerts "CA")) world0 "key-1"
           (mkValidation false (Some "revoked")));
    reflexivity.
Defined.

Lemma dispatch_validation_failure_500_witness :
  dispatch env_validation_down (request_with_key "key-1")
           (rpc_front_end env_validation_down (CallGetAlerts "CA")) world0
    = (Returned
         (JSONResponse
            (JDict [("error", JStr "Internal Server Error");
                    ("message", JStr "API Key validation failed")])
            500),
       add_event world0 (EvValidate "key-1")).
Proof.
  apply (dispatch_validation_failure_500
           env_validation_down (request_with_key "key-1")
           (rpc_front_end env_validation_down (CallGetAlerts "CA")) world0 "key-1"
           (ServiceError "connection refused"));
    reflexivity.
Defined.

(** ** Degraded answers *)

(** A failed alerts fetch gives the no-alerts text; the charge stands. *)
Lemma get_alerts_fetch_failed :
  forall (env : Env) (state : string) (w : World) (k : string) (cr : ConsumeResult)
         (e : exn),
    truthy_key (ctx_value w) = Some k ->
    consume env (trace w) k ALERT_COST_CENTS (uuid4 env (uuid_count w)) = Returned cr ->
    success cr = true ->
    state <> "" ->
    py_len state = 2 ->
    http_get_json env (trace (charged env w k ALERT_COST_CENTS))
                  (NWS_API_BASE ++ "/alerts/active/area/" ++ state) = Raised e ->
    get_alerts env state w =
      (Returned MSG_NO_ALERTS,
       add_event (charged env w k ALERT_COST_CENTS)
                 (EvFetch (NWS_API_BASE ++ "/alerts/active/area/" ++ state))).
Proof.
  intros env state w k cr e Hk Hc Hs Hne Hlen Hfetch.
  change (get_alerts env state) with (run_tool env (CallGetAlerts state)).
  rewrite (run_tool_with_key env (CallGetAlerts state) w k Hk).
  simpl cost_of. rewrite Hc, Hs. simpl after_charge.
  unfold alerts_after_charge. rewrite Hlen.
  replace (py_truthy (JStr state)) with true
    by (simpl; destruct state; [contradiction Hne; reflexivity | reflexivity]).
  change (negb true || negb (2 =? 2)) with false. cbv iota.
  unfold bind at 1.
  rewrite (make_nws_request_failure env _ e _ Hfetch). reflexivity.
Qed.

(** A failed points lookup gives the first forecast error text, and the
    second fetch is never attempted. *)
Lemma get_forecast_points_failed :
  forall (env : Env) (latitude longitude : pyfloat) (w : World) (k : string)
         (cr : ConsumeResult) (e : exn),
    truthy_key (ctx_value w) = Some k ->
    consume env (trace w) k FORECAST_COST_CENTS (uuid4 env (uuid_count w)) = Returned cr ->
    success cr = true ->
    http_get_json env (trace (charged env w k FORECAST_COST_CENTS))
                  (NWS_API_BASE ++ "/points/" ++ float_repr latitude
                                ++ "," ++ float_repr longitude) = Raised e ->
    get_forecast env latitude longitude w =
      (Returned MSG_NO_POINTS,
       add_event (charged env w k FORECAST_COST_CENTS)
                 (EvFetch (NWS_API_BASE ++ "/points/" ++ float_repr latitude
                                        ++ "," ++ float_repr longitude))).
Proof.
  intros env latitude longitude w k cr e Hk Hc Hs Hfetch.
  change (get_forecast env latitude longitude)
    with (run_tool env (CallGetForecast latitude longitude)).
  rewrite (run_tool_with_key env (CallGetForecast latitude longitude) w k Hk).
  simpl cost_of. rewrite Hc, Hs. simpl after_charge.
  unfold forecast_after_charge. unfold bind at 1.
  rewrite (make_nws_request_failure env _ e _ Hfetch). reflexivity.
Qed.

(** An alert entry whose [properties] object is empty is rendered with
    the placeholders. *)
Lemma format_alert_placeholders (env : Env) :
  format_alert env (JDict [("properties", JDict [])])
    = Returned (nl ++ "Event: Unknown" ++ nl
                   ++ "Area: Unknown" ++ nl
                   ++ "Severity: Unknown" ++ nl
                   ++ "Description: No description available" ++ nl).
Proof. reflexivity. Qed.

(** ** Documents with missing fields *)

(** C4, on the code.  A forecast period that lacks [temperature] makes
    [get_forecast] raise [KeyError], and an alert entry that lacks
    [properties] makes [get_alerts] raise [KeyError]: neither returns a
    text value, and the charge made before the fetch stands. *)
Theorem tools_raise_on_missing_fields :
  get_forecast env_sparse_forecast (mkFloat "38.5") (mkFloat "-77.0")
               (world_with_key "key-1")
    = (Raised (KeyError "temperature"),
       mkWorld (Some (Some "key-1")) 1
               [EvConsume "key-1" 3 "usage-0";
                EvFetch "https://api.weather.gov/points/38.5,-77.0";
                EvFetch "https://api.weather.gov/gridpoints/LWX/1,2/forecast"])
  /\ get_alerts env_bare_feature "CA" (world_with_key "key-1")
     = (Raised (KeyError "properties"),
        mkWorld (Some (Some "key-1")) 1
                [EvConsume "key-1" 2 "usage-0";
                 EvFetch "https://api.weather.gov/alerts/active/area/CA"])
  /\ ~ tool_always_returns_text env_sparse_forecast
         (CallGetForecast (mkFloat "38.5") (mkFloat "-77.0")) (world_with_key "key-1")
  /\ ~ tool_always_returns_text env_bare_feature (CallGetAlerts "CA")
         (world_with_key "key-1").
Proof.
  repeat split; try reflexivity;
    intros [text Htext]; vm_compute in Htext; discriminate Htext.
Qed.

(** * Further properties of the code *)

(** ** make_nws_request *)

Lemma make_nws_request_string (env : Env) (u : string) (w : World) :
  make_nws_request env (JStr u) w
    = (Returned (fetched env (trace w) u), add_event w (EvFetch u)).
Proof.
  unfold make_nws_request, try_except, call_http, fetched, ret.
  destruct (http_get_json env (trace w) u); reflexivity.
Qed.


(** ** The tools after a successful charge *)

Section AfterCharge.

Variable env : Env.

(** [get_alerts] once the charge went through and the state code passed
    the check: one fetch, then the answer is read off the document. *)
Lemma get_alerts_after_fetch (state : string) (w : World) (k : string)
      (cr : ConsumeResult) :
  truthy_key (ctx_value w) = Some k ->
  consume env (trace w) k ALERT_COST_CENTS (uuid4 env (uuid_count w)) = Returned cr ->
  success cr = true ->
  state <> "" ->
  py_len state = 2 ->
  get_alerts env state w =
    (match absent_or_lacks "features"
             (fetched env (trace (charged env w k ALERT_COST_CENTS)) (alerts_url state)) with
     | Returned true => Returned MSG_NO_ALERTS
     | Returned false =>
         format_alerts env
           (fetched env (trace (charged env w k ALERT_COST_CENTS)) (alerts_url state))
     | Raised e => Raised e
     end,
     add_event (charged env w k ALERT_COST_CENTS) (EvFetch (alerts_url state))).
Proof.
  intros Hk Hc Hs Hne Hlen.
  change (get_alerts env state) with (run_tool env (CallGetAlerts state)).
  rewrite (run_tool_with_key env (CallGetAlerts state) w k Hk).
  simpl cost_of. rewrite Hc, Hs. simpl after_charge.
  unfold alerts_after_charge. rewrite Hlen.
  replace (py_truthy (JStr state)) with true
    by (simpl; destruct state; [contradiction Hne; reflexivity | reflexivity]).
  change (negb true || negb (2 =? 2)) with false. cbv iota.
  unfold bind at 1. fold (alerts_url state).
  rewrite make_nws_request_string.
  unfold bind, lift, ret.
  destruct (absent_or_lacks "features" _) as [[|] | e]; reflexivity.
Qed.

(** [get_forecast] once the charge went through: the points lookup. *)
Lemma get_forecast_after_points (latitude longitude : pyfloat) (w : World)
      (k : string) (cr : ConsumeResult) :
  truthy_key (ctx_value w) = Some k ->
  consume env (trace w) k FORECAST_COST_CENTS (uuid4 env (uuid_count w)) = Returned cr ->
  success cr = true ->
  get_forecast env latitude longitude w =
    (let w1 := add_event (charged env w k FORECAST_COST_CENTS)
                         (EvFetch (points_url latitude longitude)) in
     let points_data :=
       fetched env (trace (charged env w k FORECAST_COST_CENTS))
               (points_url latitude longitude) in
     match absent_or_lacks "properties" points_data with
     | Returned true => (Returned MSG_NO_POINTS, w1)
     | Raised e => (Raised e, w1)
     | Returned false =>
         match obind (py_getitem points_data "properties")
                     (fun p => py_getitem p "forecast") with
         | Raised e => (Raised e, w1)
         | Returned forecast_url =>
             match make_nws_request env forecast_url w1 with
             | (Raised e, w2) => (Raised e, w2)
             | (Returned forecast_data, w2) =>
                 match absent_or_lacks "properties" forecast_data with
                 | Returned true => (Returned MSG_NO_FORECAST, w2)
                 | Returned false => (format_forecast env forecast_data, w2)
                 | Raised e => (Raised e, w2)
                 end
             end
         end
     end).
Proof.
  intros Hk Hc Hs.
  change (get_forecast env latitude longitude)
    with (run_tool env (CallGetForecast latitude longitude)).
  rewrite (run_tool_with_key env (CallGetForecast latitude longitude) w k Hk).
  simpl cost_of. rewrite Hc, Hs. simpl after_charge.
  unfold forecast_after_charge. unfold bind at 1.
  fold (points_url latitude longitude).
  rewrite make_nws_request_string. cbv zeta.
  unfold bind at 1. unfold lift at 1.
  destruct (absent_or_lacks "properties" _) as [[|] | e]; try reflexivity.
  unfold bind at 1. unfold lift at 1.
  destruct (obind _ _) as [forecast_url | e]; try reflexivity.
  unfold bind at 1.
  destruct (make_nws_request env forecast_url _) as [[forecast_data | e] w2];
    try reflexivity.
  unfold bind, lift, ret.
  destruct (absent_or_lacks "properties" forecast_data) as [[|] | e]; reflexivity.
Qed.

End AfterCharge.

(** ** Degraded answers after a charge *)

(** X2. After a successful charge, when the points lookup fails or
    yields a document that is falsy or has no [properties], [get_forecast]
    returns the fixed "unable to fetch forecast data" text; exactly one
    fetch was made, the forecast fetch is never attempted, and the usage
    event of the charge stays in the trace. *)
Theorem get_forecast_points_unusable :
  forall (env : Env) (latitude longitude : pyfloat) (w : World) (k : string)
         (cr : ConsumeResult),
    truthy_key (ctx_value w) = Some k ->
    consume env (trace w) k FORECAST_COST_CENTS (uuid4 env (uuid_count w)) = Returned cr ->
    success cr = true ->
    absent_or_lacks "properties"
      (fetched env (trace (charged env w k FORECAST_COST_CENTS))
               (points_url latitude longitude)) = Returned true ->
    fst (get_forecast env latitude longitude w)
      = Returned "Error: Unable to fetch forecast data for this location."
    /\ new_events w (snd (get_forecast env latitude longitude w))
       = [EvConsume k 3 (uuid4 env (uuid_count w));
          EvFetch (points_url latitude longitude)].
Proof.
  intros env latitude longitude w k cr Hk Hc Hs Habs.
  rewrite (get_forecast_after_points env latitude longitude w k cr Hk Hc Hs).
  cbv zeta. rewrite Habs. simpl fst. simpl snd.
  split; [reflexivity |].
  apply new_events_app. simpl. rewrite <- app_assoc. reflexivity.
Qed.

Lemma get_forecast_points_unusable_witness :
  fst (get_forecast env_provider_down (mkFloat "38.5") (mkFloat "-77.0")
                    (world_with_key "key-1"))
    = Returned "Error: Unable to fetch forecast data for this location."
  /\ new_events (world_with_key "key-1")
                (snd (get_forecast env_provider_down (mkFloat "38.5") (mkFloat "-77.0")
                                   (world_with_key "key-1")))
     = [EvConsume "key-1" 3 (uuid4 env_provider_down 0);
        EvFetch (points_url (mkFloat "38.5") (mkFloat "-77.0"))].
Proof.
  apply (get_forecast_points_unusable
           env_provider_down (mkFloat "38.5") (mkFloat "-77.0")
           (world_with_key "key-1") "key-1" (mkConsume true None));
    reflexivity.
Defined.



(** ** The second fetch of get_forecast *)



(** X5. When the forecast reference in the points document is not a
    string (a number, [null], a list, ...), no second request is sent: the
    helper turns the client's error into [None] and the tool returns
    "Error: Unable to fetch detailed forecast." after a single fetch. *)
Theorem get_forecast_reference_not_a_string :
  forall (env : Env) (latitude longitude : pyfloat) (w : World) (k : string)
         (cr : ConsumeResult) (points_data reference : json),
    truthy_key (ctx_value w) = Some k ->
    consume env (trace w) k FORECAST_COST_CENTS (uuid4 env (uuid_count w)) = Returned cr ->
    success cr = true ->
    fetched env (trace (charged env w k FORECAST_COST_CENTS))
            (points_url latitude longitude) = points_data ->
    absent_or_lacks "properties" points_data = Returned false ->
    obind (py_getitem points_data "properties") (fun p => py_getitem p "forecast")
      = Returned reference ->
    is_string reference = false ->
    fst (get_forecast env latitude longitude w)
      = Returned "Error: Unable to fetch detailed forecast."
    /\ new_events w (snd (get_forecast env latitude longitude w))
       = [EvConsume k 3 (uuid4 env (uuid_count w));
          EvFetch (points_url latitude longitude)].
Proof.
  intros env latitude longitude w k cr points_data reference Hk Hc Hs Hp Hhas Href Hstr.
  rewrite (get_forecast_after_points env latitude longitude w k cr Hk Hc Hs).
  cbv zeta. rewrite Hp, Hhas, Href.
  assert (Hreq : forall w1, make_nws_request env reference w1 = (Returned JNull, w1))
    by (intros w1; destruct reference; try discriminate Hstr; reflexivity).
  rewrite Hreq. simpl fst. simpl snd.
  split; [reflexivity |].
  apply new_events_app. simpl. rewrite <- app_assoc. reflexivity.
Qed.

Lemma get_forecast_reference_not_a_string_witness :
  fst (get_forecast (env_points_only (JInt 7)) (mkFloat "38.5") (mkFloat "-77.0")
                    (world_with_key "key-1"))
    = Returned "Error: Unable to fetch detailed forecast."
  /\ new_events (world_with_key "key-1")
                (snd (get_forecast (env_points_only (JInt 7))
                                   (mkFloat "38.5") (mkFloat "-77.0")
                                   (world_with_key "key-1")))
     = [EvConsume "key-1" 3 (uuid4 (env_points_only (JInt 7)) 0);
        EvFetch (points_url (mkFloat "38.5") (mkFloat "-77.0"))].
Proof.
  apply (get_forecast_reference_not_a_string
           (env_points_only (JInt 7)) (mkFloat "38.5") (mkFloat "-77.0")
           (world_with_key "key-1") "key-1" (mkConsume true None)
           (points_doc (JInt 7)) (JInt 7));
    reflexivity.
Defined.

(** ** Formatting *)

Lemma map_outcome_total {A B} (f : A -> Outcome B) (g : A -> bool) (l : list A) :
  (forall x, g x = true -> exists y, f x = Returned y) ->
  forallb g l = true ->
  exists ys, map_outcome f l = Returned ys /\ List.length ys = List.length l.
Proof.
  intros Hf. induction l as [| x l IH]; simpl; intros Hall.
  - exists []. auto.
  - apply andb_prop in Hall. destruct Hall as [Hx Hl].
    destruct (Hf x Hx) as [y Hy]. destruct (IH Hl) as (ys & Hys & Hlen).
    rewrite Hy, Hys. simpl. exists (y :: ys). simpl. auto.
Qed.

Lemma format_period_total (env : Env) (period : json) :
  has_keys PERIOD_KEYS period = true ->
  exists text, format_period env period = Returned text.
Proof.
  destruct period as [| | | | | | d]; simpl; try discriminate.
  unfold format_period, py_getitem.
  destruct (dict_lookup "name" d); [| discriminate].
  destruct (dict_lookup "temperature" d); [| discriminate].
  destruct (dict_lookup "temperatureUnit" d); [| discriminate].
  destruct (dict_lookup "windSpeed" d); [| discriminate].
  destruct (dict_lookup "windDirection" d); [| discriminate].
  destruct (dict_lookup "detailedForecast" d); [| discriminate].
  intros _. simpl. eexists. reflexivity.
Qed.

Lemma format_alert_with_properties (env : Env) (feature : json)
      (d : list (string * json)) :
  py_getitem feature "properties" = Returned (JDict d) ->
  format_alert env feature =
    Returned (nl ++ "Event: " ++ field_or env d "event" "Unknown" ++ nl
                 ++ "Area: " ++ field_or env d "areaDesc" "Unknown" ++ nl
                 ++ "Severity: " ++ field_or env d "severity" "Unknown" ++ nl
                 ++ "Description: "
                 ++ field_or env d "description" "No description available" ++ nl).
Proof.
  intros H. unfold format_alert. rewrite H. unfold field_or, py_get. simpl obind.
  destruct (dict_lookup "event" d), (dict_lookup "areaDesc" d),
    (dict_lookup "severity" d), (dict_lookup "description" d); reflexivity.
Qed.

Lemma format_alert_total (env : Env) (feature : json) :
  has_properties_dict feature = true ->
  exists text, format_alert env feature = Returned text.
Proof.
  unfold has_properties_dict.
  destruct (py_getitem feature "properties") as [[| | | | | | d] | e] eqn:H;
    try discriminate.
  intros _. rewrite (format_alert_with_properties env feature d H).
  eexists. reflexivity.
Qed.

(** A document that has the key is neither absent nor lacking it. *)
Lemma getitem_not_lacking (key : string) (data x : json) :
  py_getitem data key = Returned x -> absent_or_lacks key data = Returned false.
Proof.
  destruct data as [| | | | | | d]; simpl; try discriminate.
  unfold absent_or_lacks. intros H.
  destruct d as [| kv d']; [discriminate H |].
  simpl py_truthy. cbv iota. simpl negb. cbv iota.
  unfold py_contains.
  destruct (dict_lookup key (kv :: d')); [reflexivity | discriminate H].
Qed.

(** X6. In an alert entry whose [properties] is a dict, each of the
    four fields is rendered on its own: the value under [event],
    [areaDesc], [severity] and [description] when the key is there, and
    the placeholder ("Unknown", or "No description available" for the
    description) when it is missing; the entry never makes the formatting
    fail. *)
Theorem format_alert_renders_placeholders :
  forall (env : Env) (feature : json) (d : list (string * json)),
    py_getitem feature "properties" = Returned (JDict d) ->
    format_alert env feature =
      Returned (nl ++ "Event: " ++ field_or env d "event" "Unknown" ++ nl
                   ++ "Area: " ++ field_or env d "areaDesc" "Unknown" ++ nl
                   ++ "Severity: " ++ field_or env d "severity" "Unknown" ++ nl
                   ++ "Description: "
                   ++ field_or env d "description" "No description available" ++ nl).
Proof.
  intros env feature d H. apply format_alert_with_properties. exact H.
Qed.

Lemma format_alert_renders_placeholders_witness :
  format_alert env_provider_down
    (JDict [("properties",
             JDict [("event", JStr "Flood Warning"); ("areaDesc", JStr "County X");
                    ("severity", JStr "Severe")])])
  = Returned (nl ++ "Event: Flood Warning" ++ nl
                 ++ "Area: County X" ++ nl
                 ++ "Severity: Severe" ++ nl
                 ++ "Description: No description available" ++ nl).
Proof.
  apply (format_alert_renders_placeholders
           env_provider_down
           (JDict [("properties",
                    JDict [("event", JStr "Flood Warning"); ("areaDesc", JStr "County X");
                           ("severity", JStr "Severe")])])
           [("event", JStr "Flood Warning"); ("areaDesc", JStr "County X");
            ("severity", JStr "Severe")]).
  reflexivity.
Defined.

(** X7. After a successful charge, when the fetched document has a
    list under [features] and every entry has a dict under [properties],
    [get_alerts] returns one text block per entry, in order, joined by the
    separator line: it does not raise, whatever fields the entries have. *)
Theorem get_alerts_formats_every_entry :
  forall (env : Env) (state : string) (w : World) (k : string) (cr : ConsumeResult)
         (data : json) (features : list json),
    truthy_key (ctx_value w) = Some k ->
    consume env (trace w) k ALERT_COST_CENTS (uuid4 env (uuid_count w)) = Returned cr ->
    success cr = true ->
    state <> "" ->
    py_len state = 2 ->
    fetched env (trace (charged env w k ALERT_COST_CENTS)) (alerts_url state) = data ->
    py_getitem data "features" = Returned (JList features) ->
    forallb has_properties_dict features = true ->
    exists blocks,
      map_outcome (format_alert env) features = Returned blocks
      /\ List.length blocks = List.length features
      /\ fst (get_alerts env state w) = Returned (String.concat SEPARATOR blocks).
Proof.
  intros env state w k cr data features Hk Hc Hs Hne Hlen Hdata Hfeat Hall.
  destruct (map_outcome_total (format_alert env) has_properties_dict features
                              (format_alert_total env) Hall) as (blocks & Hmap & Hn).
  exists blocks. split; [exact Hmap |]. split; [exact Hn |].
  rewrite (get_alerts_after_fetch env state w k cr Hk Hc Hs Hne Hlen).
  rewrite Hdata, (getitem_not_lacking _ _ _ Hfeat). simpl fst.
  unfold format_alerts. rewrite Hfeat. simpl. rewrite Hmap. reflexivity.
Qed.

Lemma get_alerts_formats_every_entry_witness :
  exists blocks,
    map_outcome (format_alert (env_document (alerts_doc [JDict [("properties", JDict [])]])))
                [JDict [("properties", JDict [])]] = Returned blocks
    /\ List.length blocks = 1%nat
    /\ fst (get_alerts (env_document (alerts_doc [JDict [("properties", JDict [])]])) "CA"
                       (world_with_key "key-1"))
       = Returned (String.concat SEPARATOR blocks).
Proof.
  apply (get_alerts_formats_every_entry
           (env_document (alerts_doc [JDict [("properties", JDict [])]])) "CA"
           (world_with_key "key-1") "key-1" (mkConsume true None)
           (alerts_doc [JDict [("properties", JDict [])]])
           [JDict [("properties", JDict [])]]);
    try reflexivity.
  discriminate.
Defined.

(** X8. An alert collection with no entries gives the empty string, not
    the no-alerts message: the message is returned only when the document
    is falsy or has no [features] key. *)
Theorem get_alerts_empty_collection :
  forall (env : Env) (state : string) (w : World) (k : string) (cr : ConsumeResult)
         (data : json),
    truthy_key (ctx_value w) = Some k ->
    consume env (trace w) k ALERT_COST_CENTS (uuid4 env (uuid_count w)) = Returned cr ->
    success cr = true ->
    state <> "" ->
    py_len state = 2 ->
    fetched env (trace (charged env w k ALERT_COST_CENTS)) (alerts_url state) = data ->
    py_getitem data "features" = Returned (JList []) ->
    fst (get_alerts env state w) = Returned "".
Proof.
  intros env state w k cr data Hk Hc Hs Hne Hlen Hdata Hfeat.
  rewrite (get_alerts_after_fetch env state w k cr Hk Hc Hs Hne Hlen).
  rewrite Hdata, (getitem_not_lacking _ _ _ Hfeat). simpl fst.
  unfold format_alerts. rewrite Hfeat. reflexivity.
Qed.

Lemma get_alerts_empty_collection_witness :
  fst (get_alerts (env_document (alerts_doc [])) "CA" (world_with_key "key-1"))
    = Returned "".
Proof.
  apply (get_alerts_empty_collection
           (env_document (alerts_doc [])) "CA" (world_with_key "key-1") "key-1"
           (mkConsume true None) (alerts_doc []));
    try reflexivity.
  discriminate.
Defined.

(** X9. After a successful charge and two successful fetches, when the
    forecast document has a list of periods and the first five of them
    (all of them, if fewer) carry the six keys the tool reads,
    [get_forecast] returns one block per period for the first five
    periods, joined by the separator line; periods after the fifth are
    not looked at. *)
Theorem get_forecast_first_five_periods :
  forall (env : Env) (latitude longitude : pyfloat) (w : World) (k : string)
         (cr : ConsumeResult) (points_data : json) (reference : string)
         (forecast_data properties : json) (periods : list json),
    truthy_key (ctx_value w) = Some k ->
    consume env (trace w) k FORECAST_COST_CENTS (uuid4 env (uuid_count w)) = Returned cr ->
    success cr = true ->
    fetched env (trace (charged env w k FORECAST_COST_CENTS))
            (points_url latitude longitude) = points_data ->
    absent_or_lacks "properties" points_data = Returned false ->
    obind (py_getitem points_data "properties") (fun p => py_getitem p "forecast")
      = Returned (JStr reference) ->
    fetched env
            (trace (add_event (charged env w k FORECAST_COST_CENTS)
                              (EvFetch (points_url latitude longitude))))
            reference = forecast_data ->
    py_getitem forecast_data "properties" = Returned properties ->
    py_getitem properties "periods" = Returned (JList periods) ->
    forallb (has_keys PERIOD_KEYS) (firstn 5 periods) = true ->
    exists blocks,
      map_outcome (format_period env) (firstn 5 periods) = Returned blocks
      /\ List.length blocks = Nat.min 5 (List.length periods)
      /\ fst (get_forecast env latitude longitude w)
         = Returned (String.concat SEPARATOR blocks).
Proof.
  intros env latitude longitude w k cr points_data reference forecast_data properties
         periods Hk Hc Hs Hp Hhas Href Hf Hprops Hper Hall.
  destruct (map_outcome_total (format_period env) (has_keys PERIOD_KEYS)
                              (firstn 5 periods) (format_period_total env) Hall)
    as (blocks & Hmap & Hn).
  exists blocks. split; [exact Hmap |].
  split; [rewrite Hn; apply length_firstn |].
  rewrite (get_forecast_after_points env latitude longitude w k cr Hk Hc Hs).
  cbv zeta. rewrite Hp, Hhas, Href, make_nws_request_string, Hf.
  rewrite (getitem_not_lacking _ _ _ Hprops). simpl fst.
  unfold format_forecast. rewrite Hprops. cbn [obind]. rewrite Hper.
  cbn [obind py_slice_to py_iter]. rewrite Hmap. reflexivity.
Qed.

Lemma get_forecast_first_five_periods_witness :
  exists blocks,
    map_outcome (format_period (env_forecast (forecast_doc eight_periods)))
                (firstn 5 eight_periods) = Returned blocks
    /\ List.length blocks = Nat.min 5 (List.length eight_periods)
    /\ fst (get_forecast (env_forecast (forecast_doc eight_periods))
                         (mkFloat "38.5") (mkFloat "-77.0") (world_with_key "key-1"))
       = Returned (String.concat SEPARATOR blocks).
Proof.
  apply (get_forecast_first_five_periods
           (env_forecast (forecast_doc eight_periods))
           (mkFloat "38.5") (mkFloat "-77.0") (world_with_key "key-1") "key-1"
           (mkConsume true None) (points_doc (JStr FORECAST_REF)) FORECAST_REF
           (forecast_doc eight_periods) (JDict [("periods", JList eight_periods)])
           eight_periods);
    reflexivity.
Defined.

(** ** What a tool touches *)

Lemma at_most_fetches_refl (w : World) : at_most_fetches 0 w w.
Proof.
  repeat split. exists []. rewrite app_nil_r. auto.
Qed.

Lemma at_most_fetches_weaken (n n' : nat) (w w' : World) :
  (n <= n')%nat -> at_most_fetches n w w' -> at_most_fetches n' w w'.
Proof.
  intros Hle (Hc & Hu & evs & Ht & Hf & Hn).
  repeat split; auto. exists evs. repeat split; auto. lia.
Qed.

Lemma at_most_fetches_trans (a b : nat) (w1 w2 w3 : World) :
  at_most_fetches a w1 w2 -> at_most_fetches b w2 w3 ->
  at_most_fetches (a + b) w1 w3.
Proof.
  intros (Hc1 & Hu1 & evs1 & Ht1 & Hf1 & Hn1) (Hc2 & Hu2 & evs2 & Ht2 & Hf2 & Hn2).
  repeat split; try congruence.
  exists (evs1 ++ evs2)%list. repeat split.
  - rewrite Ht2, Ht1, app_assoc. reflexivity.
  - rewrite forallb_app, Hf1, Hf2. reflexivity.
  - rewrite length_app. lia.
Qed.

Lemma fetches_within_ret {A} (a : A) : fetches_within 0 (ret a).
Proof. intros w. apply at_most_fetches_refl. Qed.

Lemma fetches_within_lift {A} (o : Outcome A) : fetches_within 0 (lift o).
Proof. intros w. apply at_most_fetches_refl. Qed.

Lemma fetches_within_weaken {A} (n n' : nat) (m : M A) :
  (n <= n')%nat -> fetches_within n m -> fetches_within n' m.
Proof. intros Hle H w. eapply at_most_fetches_weaken; eauto. Qed.

Lemma fetches_within_bind {A B} (a b : nat) (m : M A) (f : A -> M B) :
  fetches_within a m -> (forall x, fetches_within b (f x)) ->
  fetches_within (a + b) (bind m f).
Proof.
  intros Hm Hf w. unfold bind.
  specialize (Hm w). destruct (m w) as [[x | e] w1]; simpl in *.
  - eapply at_most_fetches_trans; [exact Hm | apply Hf].
  - eapply at_most_fetches_weaken; [| exact Hm]. lia.
Qed.

Lemma fetches_within_if {A} (n : nat) (c : bool) (m1 m2 : M A) :
  fetches_within n m1 -> fetches_within n m2 ->
  fetches_within n (if c then m1 else m2).
Proof. destruct c; auto. Qed.

Lemma make_nws_request_within (env : Env) (url : json) :
  fetches_within 1 (make_nws_request env url).
Proof.
  intros w. unfold make_nws_request, try_except, call_http, raise, ret.
  assert (Hstay : at_most_fetches 1 w w)
    by (eapply at_most_fetches_weaken; [| apply at_most_fetches_refl]; lia).
  destruct url; simpl; try exact Hstay.
  assert (Hone : at_most_fetches 1 w (add_event w (EvFetch s)))
    by (repeat split; exists [EvFetch s]; auto).
  destruct (http_get_json env (trace w) s); exact Hone.
Qed.

Lemma after_charge_within (env : Env) (call : ToolCall) :
  fetches_within (fetch_bound call) (after_charge env call).
Proof.
  destruct call; simpl.
  - unfold alerts_after_charge.
    apply fetches_within_if.
    + apply (fetches_within_weaken 0); [lia | apply fetches_within_ret].
    + apply (fetches_within_bind 1 0); [apply make_nws_request_within |].
      intros data. apply (fetches_within_bind 0 0); [apply fetches_within_lift |].
      intros missing. apply fetches_within_if;
        [apply fetches_within_ret | apply fetches_within_lift].
  - unfold forecast_after_charge.
    apply (fetches_within_bind 1 1); [apply make_nws_request_within |].
    intros points_data.
    apply (fetches_within_bind 0 1); [apply fetches_within_lift |].
    intros missing. apply fetches_within_if.
    + apply (fetches_within_weaken 0); [lia | apply fetches_within_ret].
    + apply (fetches_within_bind 0 1); [apply fetches_within_lift |].
      intros forecast_url.
      apply (fetches_within_bind 1 0); [apply make_nws_request_within |].
      intros forecast_data.
      apply (fetches_within_bind 0 0); [apply fetches_within_lift |].
      intros missing'. apply fetches_within_if;
        [apply fetches_within_ret | apply fetches_within_lift].
Qed.

Lemma filter_fetch_all (evs : list Event) :
  forallb is_fetch evs = true -> filter is_fetch evs = evs.
Proof.
  induction evs as [| e evs IH]; simpl; [reflexivity |].
  intros H. apply andb_prop in H. destruct H as [He Hevs].
  rewrite He, (IH Hevs). reflexivity.
Qed.

Lemma filter_validate_fetches (evs : list Event) :
  forallb is_fetch evs = true -> filter is_validate evs = [].
Proof.
  induction evs as [| e evs IH]; simpl; [reflexivity |].
  intros H. apply andb_prop in H. destruct H as [He Hevs].
  destruct e; simpl in *; try discriminate. auto.
Qed.

(** The shape of every run of a tool: nothing at all without a usable
    key; otherwise the charge first and then at most [fetch_bound]
    fetches. *)
Lemma run_tool_shape (env : Env) (call : ToolCall) (w : World) :
  api_key_context (snd (run_tool env call w)) = api_key_context w /\
  ((truthy_key (ctx_value w) = None /\ snd (run_tool env call w) = w) \/
   (exists k evs,
       truthy_key (ctx_value w) = Some k /\
       uuid_count (snd (run_tool env call w)) = S (uuid_count w) /\
       new_events w (snd (run_tool env call w))
         = EvConsume k (cost_of call) (uuid4 env (uuid_count w)) :: evs /\
       forallb is_fetch evs = true /\
       (List.length evs <= fetch_bound call)%nat)).
Proof.
  destruct (truthy_key (ctx_value w)) as [k |] eqn:Hk.
  - rewrite (run_tool_with_key env call w k Hk).
    assert (Hstop : forall r : Outcome string,
               api_key_context (snd (r, charged env w k (cost_of call)))
               = api_key_context w /\
               ((Some k = None /\ snd (r, charged env w k (cost_of call)) = w) \/
                (exists k0 evs,
                    Some k = Some k0 /\
                    uuid_count (snd (r, charged env w k (cost_of call)))
                    = S (uuid_count w) /\
                    new_events w (snd (r, charged env w k (cost_of call)))
                    = EvConsume k0 (cost_of call) (uuid4 env (uuid_count w)) :: evs /\
                    forallb is_fetch evs = true /\
                    (List.length evs <= fetch_bound call)%nat))).
    { intros r. split; [reflexivity |]. right. exists k, [].
      simpl snd. rewrite new_events_charged. simpl. repeat split; auto. lia. }
    destruct (consume env (trace w) k (cost_of call) (uuid4 env (uuid_count w)))
      as [cr | e]; [| apply Hstop].
    destruct (success cr); [| apply Hstop].
    destruct (after_charge_within env call (charged env w k (cost_of call)))
      as (Hc & Hu & evs & Ht & Hf & Hn).
    split; [rewrite Hc; reflexivity |].
    right. exists k, evs. repeat split; auto.
    apply new_events_app. rewrite Ht. simpl. rewrite <- app_assoc. reflexivity.
  - rewrite (run_tool_without_key env call w Hk). simpl. auto.
Qed.

(** X10. No tool retries or fans out: whatever the collaborators answer,
    a run of [get_alerts] makes at most one data-provider fetch and a run
    of [get_forecast] at most two. *)
Theorem tool_fetch_bound :
  forall (env : Env) (call : ToolCall) (w : World),
    (List.length (filter is_fetch (new_events w (snd (run_tool env call w))))
     <= match call with
        | CallGetAlerts _ => 1
        | CallGetForecast _ _ => 2
        end)%nat.
Proof.
  intros env call w.
  destruct (run_tool_shape env call w) as [_ [[_ Hw] | (k & evs & _ & _ & Hev & Hf & Hn)]].
  - rewrite Hw, new_events_same. simpl. destruct call; lia.
  - rewrite Hev. simpl. rewrite (filter_fetch_all evs Hf).
    destruct call; exact Hn.
Qed.

(** X11. The tools only read the context variable: after any run of
    [get_alerts] or [get_forecast] it is in the state it was in before,
    the tool has made no validation call, and it has drawn at most one
    identifier from the generator. *)
Theorem tool_leaves_context_alone :
  forall (env : Env) (call : ToolCall) (w : World),
    api_key_context (snd (run_tool env call w)) = api_key_context w
    /\ filter is_validate (new_events w (snd (run_tool env call w))) = []
    /\ (uuid_count w <= uuid_count (snd (run_tool env call w)) <= S (uuid_count w))%nat.
Proof.
  intros env call w.
  destruct (run_tool_shape env call w)
    as [Hctx [[_ Hw] | (k & evs & _ & Hu & Hev & Hf & _)]].
  - split; [exact Hctx |]. rewrite Hw, new_events_same. simpl. split; [reflexivity | lia].
  - split; [exact Hctx |]. rewrite Hev, Hu. simpl.
    rewrite (filter_validate_fetches evs Hf). split; [reflexivity | lia].
Qed.

(** X12. Charge before fetch: in a run that reaches the metering step
    the first external call is the consume call, and every call after it
    is a data-provider fetch; no fetch comes before the charge. *)
Theorem charge_precedes_every_fetch :
  forall (env : Env) (call : ToolCall) (w : World) (k : string),
    truthy_key (ctx_value w) = Some k ->
    exists fetches,
      new_events w (snd (run_tool env call w))
        = EvConsume k (cost_of call) (uuid4 env (uuid_count w)) :: fetches
      /\ forallb is_fetch fetches = true.
Proof.
  intros env call w k Hk.
  destruct (run_tool_shape env call w)
    as [_ [[Hnone _] | (k' & evs & Hk' & _ & Hev & Hf & _)]].
  - rewrite Hk in Hnone. discriminate Hnone.
  - rewrite Hk in Hk'. injection Hk' as <-. exists evs. auto.
Qed.

Lemma charge_precedes_every_fetch_witness :
  exists fetches,
    new_events (world_with_key "key-1")
               (snd (run_tool (env_forecast (forecast_doc eight_periods))
                              (CallGetForecast (mkFloat "38.5") (mkFloat "-77.0"))
                              (world_with_key "key-1")))
      = EvConsume "key-1"
                  (cost_of (CallGetForecast (mkFloat "38.5") (mkFloat "-77.0")))
                  (uuid4 (env_forecast (forecast_doc eight_periods)) 0)
        :: fetches
    /\ forallb is_fetch fetches = true.
Proof.
  apply (charge_precedes_every_fetch
           (env_forecast (forecast_doc eight_periods))
           (CallGetForecast (mkFloat "38.5") (mkFloat "-77.0"))
           (world_with_key "key-1") "key-1").
  reflexivity.
Defined.

(** X13. The consume call is not guarded: when the billing client
    raises instead of answering, the exception leaves the tool as it is,
    after the one consume call and without any data-provider fetch. *)
Theorem consume_exception_leaves_tool :
  forall (env : Env) (call : ToolCall) (w : World) (k : string) (e : exn),
    truthy_key (ctx_value w) = Some k ->
    consume env (trace w) k (cost_of call) (uuid4 env (uuid_count w)) = Raised e ->
    fst (run_tool env call w) = Raised e
    /\ new_events w (snd (run_tool env call w))
       = [EvConsume k (cost_of call) (uuid4 env (uuid_count w))].
Proof.
  intros env call w k e Hk Hc.
  rewrite (run_tool_with_key env call w k Hk), Hc. simpl.
  rewrite new_events_charged. auto.
Qed.

Lemma consume_exception_leaves_tool_witness :
  fst (run_tool env_consume_raises (CallGetAlerts "CA") (world_with_key "key-1"))
    = Raised (ServiceError "billing unreachable")
  /\ new_events (world_with_key "key-1")
                (snd (run_tool env_consume_raises (CallGetAlerts "CA")
                               (world_with_key "key-1")))
     = [EvConsume "key-1" (cost_of (CallGetAlerts "CA")) (uuid4 env_consume_raises 0)].
Proof.
  apply (consume_exception_leaves_tool
           env_consume_raises (CallGetAlerts "CA") (world_with_key "key-1") "key-1"
           (ServiceError "billing unreachable"));
    reflexivity.
Defined.

(** ** From the header to the charge *)

Lemma truthy_key_some (api_key : option string) (k : string) :
  truthy_key api_key = Some k -> api_key = Some k.
Proof.
  destruct api_key as [k' |]; simpl; [| discriminate].
  destruct (negb (String.eqb k' "")); [| discriminate].
  intros H. exact H.
Qed.

(** X14. A request whose non-empty key the billing client reports valid
    passes the middleware after exactly one validation call; the
    downstream stage runs with that key bound in the context, and a
    metered tool run in that scope charges that same key, as its first
    external call. *)
Theorem validated_key_is_the_charged_key :
  forall (env : Env) (request : Request) (call_next : Request -> M Response)
         (call : ToolCall) (w : World) (k : string) (vr : ValidationResult),
    truthy_key (headers_get (headers request) API_KEY_HEADER) = Some k ->
    validate_api_key env (trace w) k = Returned vr ->
    is_valid vr = true ->
    dispatch env request call_next w =
      (fst (call_next request
              (with_context (add_event w (EvValidate k)) (Some (Some k)))),
       with_context
         (snd (call_next request
                 (with_context (add_event w (EvValidate k)) (Some (Some k)))))
         (api_key_context w))
    /\ exists fetches,
        new_events (with_context (add_event w (EvValidate k)) (Some (Some k)))
                   (snd (run_tool env call
                                  (with_context (add_event w (EvValidate k))
                                                (Some (Some k)))))
          = EvConsume k (cost_of call) (uuid4 env (uuid_count w)) :: fetches
        /\ forallb is_fetch fetches = true.
Proof.
  intros env request call_next call w k vr Hk Hv Hvalid.
  pose proof (truthy_key_some _ _ Hk) as Hh.
  split.
  - assert (Hblock : validate_block env (headers_get (headers request) API_KEY_HEADER) w
                     = (Returned None, add_event w (EvValidate k))).
    { unfold validate_block, try_except, bind, call_validate, ret.
      rewrite Hk, Hv, Hvalid. reflexivity. }
    rewrite (dispatch_pass env request call_next w _ Hblock), Hh. reflexivity.
  - rewrite Hh in Hk.
    destruct (run_tool_shape env call
                (with_context (add_event w (EvValidate k)) (Some (Some k))))
      as [_ [[Hnone _] | (k' & evs & Hk' & _ & Hev & Hf & _)]].
    + change (ctx_value (with_context (add_event w (EvValidate k)) (Some (Some k))))
        with (Some k) in Hnone.
      rewrite Hk in Hnone. discriminate Hnone.
    + change (ctx_value (with_context (add_event w (EvValidate k)) (Some (Some k))))
        with (Some k) in Hk'.
      rewrite Hk in Hk'. injection Hk' as <-.
      exists evs. split; [exact Hev | exact Hf].
Qed.

Lemma validated_key_is_the_charged_key_witness :
  dispatch env_provider_down (request_with_key "key-1")
           (rpc_front_end env_provider_down (CallGetAlerts "CA")) world0
    = (fst (rpc_front_end env_provider_down (CallGetAlerts "CA")
                          (request_with_key "key-1")
                          (with_context (add_event world0 (EvValidate "key-1"))
                                        (Some (Some "key-1")))),
       with_context
         (snd (rpc_front_end env_provider_down (CallGetAlerts "CA")
                             (request_with_key "key-1")
                             (with_context (add_event world0 (EvValidate "key-1"))
                                           (Some (Some "key-1")))))
         (api_key_context world0))
  /\ exists fetches,
      new_events (with_context (add_event world0 (EvValidate "key-1"))
                               (Some (Some "key-1")))
                 (snd (run_tool env_provider_down (CallGetAlerts "CA")
                                (with_context (add_event world0 (EvValidate "key-1"))
                                              (Some (Some "key-1")))))
        = EvConsume "key-1" (cost_of (CallGetAlerts "CA"))
                    (uuid4 env_provider_down (uuid_count world0)) :: fetches
      /\ forallb is_fetch fetches = true.
Proof.
  apply (validated_key_is_the_charged_key
           env_provider_down (request_with_key "key-1")
           (rpc_front_end env_provider_down (CallGetAlerts "CA"))
           (CallGetAlerts "CA") world0 "key-1" (mkValidation true None));
    reflexivity.
Defined.

(** ** Documents that are not containers *)

(** X15. The guard [not data or "features" not in data] catches falsy
    documents only: when the provider's body decodes to a truthy number
    or to [true], the membership test itself raises [TypeError] and the
    exception leaves [get_alerts], after the charge and the one fetch. *)
Theorem get_alerts_scalar_document_raises :
  forall (env : Env) (state : string) (w : World) (k : string) (cr : ConsumeResult)
         (data : json),
    truthy_key (ctx_value w) = Some k ->
    consume env (trace w) k ALERT_COST_CENTS (uuid4 env (uuid_count w)) = Returned cr ->
    success cr = true ->
    state <> "" ->
    py_len state = 2 ->
    fetched env (trace (charged env w k ALERT_COST_CENTS)) (alerts_url state) = data ->
    is_scalar data = true ->
    py_truthy data = true ->
    fst (get_alerts env state w) = Raised TypeError
    /\ new_events w (snd (get_alerts env state w))
       = [EvConsume k 2 (uuid4 env (uuid_count w)); EvFetch (alerts_url state)].
Proof.
  intros env state w k cr data Hk Hc Hs Hne Hlen Hdata Hscalar Htruthy.
  rewrite (get_alerts_after_fetch env state w k cr Hk Hc Hs Hne Hlen).
  rewrite Hdata. unfold absent_or_lacks. rewrite Htruthy. simpl negb. cbv iota.
  split.
  - destruct data; try discriminate Hscalar; reflexivity.
  - simpl snd. apply new_events_app. simpl. rewrite <- app_assoc. reflexivity.
Qed.

Lemma get_alerts_scalar_document_raises_witness :
  fst (get_alerts (env_document (JInt 42)) "CA" (world_with_key "key-1"))
    = Raised TypeError
  /\ new_events (world_with_key "key-1")
                (snd (get_alerts (env_document (JInt 42)) "CA" (world_with_key "key-1")))
     = [EvConsume "key-1" 2 (uuid4 (env_document (JInt 42)) 0);
        EvFetch (alerts_url "CA")].
Proof.
  apply (get_alerts_scalar_document_raises
           (env_document (JInt 42)) "CA" (world_with_key "key-1") "key-1"
           (mkConsume true None) (JInt 42));
    try reflexivity.
  discriminate.
Defined.
